(** * MUN platform backend: the routes of [app/api/routes] over a model of
    the storage service

    The handlers of [auth.py] and [documents.py] are embedded as functions
    over an explicit store.  A table is the list of its rows, a row is a
    dictionary from column names to JSON values, as the Python code sees
    them ([result.data], [row["user_id"]]). *)

From stdpp Require Import gmap strings list fin_maps.

Local Open Scope string_scope.

(** ** JSON values and rows *)

Inductive value :=
| VNull
| VStr (s : string)
| VList (l : list string).

#[global] Instance value_eq_dec : EqDecision value.
Proof. solve_decision. Defined.

Abbreviation row := (gmap string value).

(** [Optional[str]] fields of the request models, as [.dict()] shows them. *)
Definition opt_value (o : option string) : value :=
  match o with
  | Some s => VStr s
  | None => VNull
  end.

(** Python truthiness of an [Optional[str]]: [None] and [""] are false. *)
Definition truthy (o : option string) : bool :=
  match o with
  | Some s => negb (String.eqb s "")
  | None => false
  end.

(** ** Outcome of a handler *)

Inductive result (A : Type) :=
| Return (a : A)
| HTTPException (status_code : nat) (detail : string)
                (headers : list (string * string))
| Raised (exn : string).

Arguments Return {A} a.
Arguments HTTPException {A} status_code detail headers.
Arguments Raised {A} exn.

Definition HTTP_400_BAD_REQUEST : nat := 400.
Definition HTTP_401_UNAUTHORIZED : nat := 401.
Definition HTTP_403_FORBIDDEN : nat := 403.
Definition HTTP_404_NOT_FOUND : nat := 404.
Definition HTTP_500_INTERNAL_SERVER_ERROR : nat := 500.

(** [row[key]]: a missing key raises [KeyError]. *)
Definition getitem {A} (r : row) (key : string) (k : value → result A)
  : result A :=
  match r !! key with
  | Some v => k v
  | None => Raised "KeyError"
  end.

(** ** The storage service

    [supabase.table(t)] followed by [select("*")], [insert], [update] or
    [delete], narrowed by [eq(column, text)].  The service is outside the
    repository; the model keeps what the handlers rely on: [eq] keeps the
    rows whose column holds that text, [update] overwrites the given
    columns of the rows it matches and reports them, [delete] drops the
    rows it matches, [insert] appends one row. *)
Module Table.

Definition matches (column text : string) (r : row) : Prop :=
  r !! column = Some (VStr text).

#[global] Instance matches_dec column text r : Decision (matches column text r).
Proof. unfold matches. apply _. Defined.

Definition select_eq (column text : string) (t : list row) : list row :=
  filter (matches column text) t.

Definition patch (column text : string) (data : row) (r : row) : row :=
  if decide (matches column text r) then data ∪ r else r.

Definition update_eq (data : row) (column text : string) (t : list row)
  : list row :=
  patch column text data <$> t.

(** [result.data] of an update: the rows it matched, as updated.  What
    the service reports for an update that sets no column is its own
    affair; the statements below about [update] speak of the store. *)
Definition updated (data : row) (column text : string) (t : list row)
  : list row :=
  patch column text data <$> select_eq column text t.

Definition delete_eq (column text : string) (t : list row) : list row :=
  filter (λ r, ¬ matches column text r) t.

(** The service fills the columns the request leaves out (id,
    created_at, ...) with [generated]; supplied columns are stored as
    supplied. *)
Definition stored_row (new generated : row) : row := new ∪ generated.

Definition insert (r : row) (t : list row) : list row := (t ++ [r])%list.

End Table.

Record Supabase := {
  users : list row;
  documents : list row
}.

Definition with_documents (db : Supabase) (t : list row) : Supabase :=
  {| users := users db; documents := t |}.

Definition with_users (db : Supabase) (t : list row) : Supabase :=
  {| users := t; documents := documents db |}.

(** What the service answers to an insert is not decided by the
    handlers: either no data comes back (and nothing is stored), or the
    row is stored with the service's generated columns. *)
Inductive insert_reply :=
| NoData
| Stored (generated : row).

(** ** Request models ([app/schemas/document.py]) *)

Record DocumentCreate := {
  dc_title : string;
  dc_type : string;
  dc_committee : string;
  dc_country : string;
  dc_topic : string;
  dc_content : option string
}.

Definition DocumentCreate_dict (d : DocumentCreate) : row :=
  {[ "title" := VStr (dc_title d);
     "type" := VStr (dc_type d);
     "committee" := VStr (dc_committee d);
     "country" := VStr (dc_country d);
     "topic" := VStr (dc_topic d);
     "content" := opt_value (dc_content d) ]}.

Record DocumentUpdate := {
  du_title : option string;
  du_type : option string;
  du_committee : option string;
  du_country : option string;
  du_topic : option string;
  du_content : option string;
  du_format_status : option string
}.

Definition DocumentUpdate_dict (d : DocumentUpdate) : row :=
  {[ "title" := opt_value (du_title d);
     "type" := opt_value (du_type d);
     "committee" := opt_value (du_committee d);
     "country" := opt_value (du_country d);
     "topic" := opt_value (du_topic d);
     "content" := opt_value (du_content d);
     "format_status" := opt_value (du_format_status d) ]}.

(** The authenticated identity handed to a protected route. *)
Record TokenData := { user_id : string }.

(** ** [app/api/routes/documents.py] *)
Module Documents.

Definition create_document (db : Supabase) (reply : insert_reply)
    (document : DocumentCreate) (current_user : TokenData)
  : Supabase * result row :=
  let new_document :=
    <["format_status" := VStr "not_checked"]>
      (<["user_id" := VStr (user_id current_user)]>
         (DocumentCreate_dict document)) in
  match reply with
  | NoData =>
      (db, HTTPException HTTP_500_INTERNAL_SERVER_ERROR
             "Failed to create document" [])
  | Stored generated =>
      let r := Table.stored_row new_document generated in
      (with_documents db (Table.insert r (documents db)), Return r)
  end.

(** [if x: query = query.eq(column, x)] *)
Definition narrow (column : string) (x : option string) (t : list row)
  : list row :=
  if truthy x then Table.select_eq column (default "" x) t else t.

Definition get_documents (db : Supabase)
    (type committee country : option string) (current_user : TokenData)
  : Supabase * result (list row) :=
  let query := documents db in
  let query := narrow "type" type query in
  let query := narrow "committee" committee query in
  let query := narrow "country" country query in
  (db, Return query).

Definition get_document (db : Supabase) (document_id : string)
    (current_user : TokenData) : Supabase * result row :=
  match Table.select_eq "id" document_id (documents db) with
  | [] => (db, HTTPException HTTP_404_NOT_FOUND "Document not found" [])
  | first :: _ => (db, Return first)
  end.

Definition update_data (document_update : DocumentUpdate) : row :=
  filter (λ kv, kv.2 ≠ VNull) (DocumentUpdate_dict document_update).

Definition update_document (db : Supabase) (document_id : string)
    (document_update : DocumentUpdate) (current_user : TokenData)
  : Supabase * result row :=
  match Table.select_eq "id" document_id (documents db) with
  | [] => (db, HTTPException HTTP_404_NOT_FOUND "Document not found" [])
  | first :: _ =>
      match first !! "user_id" with
      | None => (db, Raised "KeyError")
      | Some owner =>
          if decide (owner ≠ VStr (user_id current_user)) then
            (db, HTTPException HTTP_403_FORBIDDEN
                   "Not authorized to update this document" [])
          else
            let data := update_data document_update in
            let t := Table.update_eq data "id" document_id (documents db) in
            match Table.updated data "id" document_id (documents db) with
            | [] =>
                (with_documents db t,
                 HTTPException HTTP_500_INTERNAL_SERVER_ERROR
                   "Failed to update document" [])
            | hit :: _ => (with_documents db t, Return hit)
            end
      end
  end.

Definition delete_document (db : Supabase) (document_id : string)
    (current_user : TokenData) : Supabase * result unit :=
  match Table.select_eq "id" document_id (documents db) with
  | [] => (db, HTTPException HTTP_404_NOT_FOUND "Document not found" [])
  | first :: _ =>
      match first !! "user_id" with
      | None => (db, Raised "KeyError")
      | Some owner =>
          if decide (owner ≠ VStr (user_id current_user)) then
            (db, HTTPException HTTP_403_FORBIDDEN
                   "Not authorized to delete this document" [])
          else
            (with_documents db
               (Table.delete_eq "id" document_id (documents db)),
             Return ())
      end
  end.

Definition format_issues : list string :=
  [ "Incorrect heading format";
    "Missing country flag in header";
    "Citation style inconsistent" ].

(** [is_valid] is the draw of [random.choice([True, False])]. *)
Definition check_document_format (db : Supabase) (is_valid : bool)
    (document_id : string) (current_user : TokenData)
  : Supabase * result row :=
  match Table.select_eq "id" document_id (documents db) with
  | [] => (db, HTTPException HTTP_404_NOT_FOUND "Document not found" [])
  | _ :: _ =>
      let format_status := if is_valid then "valid" else "issues" in
      let issues := if is_valid then VNull else VList format_issues in
      (with_documents db
         (Table.update_eq {[ "format_status" := VStr format_status ]}
            "id" document_id (documents db)),
       Return {[ "document_id" := VStr document_id;
                 "format_status" := VStr format_status;
                 "issues" := issues ]})
  end.

End Documents.

(** ** Request models of [app/api/routes/auth.py]

    [app/schemas/user.py] is not among the sources; the fields are those
    the handlers read. *)

Record UserCreate := {
  uc_email : string;
  uc_username : string;
  uc_password : string
}.

Record UserLogin := {
  ul_email : string;
  ul_password : string
}.

Record OAuth2PasswordRequestForm := {
  grant_type : option string;
  username : string;
  password : string;
  scope : string;
  client_id : option string;
  client_secret : option string
}.

(** [OAuth2PasswordRequestForm(username=..., password=...)]: the
    framework's constructor keeps the two arguments and leaves the other
    fields at their defaults. *)
Definition form_of (username password : string) : OAuth2PasswordRequestForm :=
  {| grant_type := None; username := username; password := password;
     scope := ""; client_id := None; client_secret := None |}.

(** ** [app/api/routes/auth.py]

    [get_password_hash], [verify_password], [create_access_token] and
    [ACCESS_TOKEN_EXPIRE_MINUTES] are imported from [app/api/auth.py],
    which is not among the sources: the handlers are stated over any
    such functions. *)
Module Auth.
Section Routes.

Variable get_password_hash : string → string.
Variable verify_password : string → value → bool.
Variable create_access_token : row → nat → string.
Variable ACCESS_TOKEN_EXPIRE_MINUTES : nat.

Definition unauthorized {A} : result A :=
  HTTPException HTTP_401_UNAUTHORIZED "Incorrect email or password"
    [("WWW-Authenticate", "Bearer")].

Definition create_user (db : Supabase) (reply : insert_reply)
    (user : UserCreate) : Supabase * result row :=
  match Table.select_eq "email" (uc_email user) (users db) with
  | _ :: _ =>
      (db, HTTPException HTTP_400_BAD_REQUEST "Email already registered" [])
  | [] =>
      let hashed_password := get_password_hash (uc_password user) in
      let new_user : row :=
        {[ "email" := VStr (uc_email user);
           "username" := VStr (uc_username user);
           "password" := VStr hashed_password ]} in
      match reply with
      | NoData =>
          (db, HTTPException HTTP_500_INTERNAL_SERVER_ERROR
                 "Failed to create user" [])
      | Stored generated =>
          let created_user := Table.stored_row new_user generated in
          (with_users db (Table.insert created_user (users db)),
           getitem created_user "id" (λ id,
           getitem created_user "email" (λ email,
           getitem created_user "username" (λ name,
           getitem created_user "created_at" (λ created_at,
             Return ({[ "id" := id;
                        "email" := email;
                        "username" := name;
                        "created_at" := created_at ]} : row))))))
      end
  end.

Definition login_for_access_token (db : Supabase)
    (form_data : OAuth2PasswordRequestForm) : Supabase * result row :=
  match Table.select_eq "email" (username form_data) (users db) with
  | [] => (db, unauthorized)
  | user :: _ =>
      (db,
       getitem user "password" (λ hashed,
         if negb (verify_password (password form_data) hashed) then
           unauthorized
         else
           getitem user "id" (λ id,
             let access_token :=
               create_access_token {[ "sub" := id ]}
                 ACCESS_TOKEN_EXPIRE_MINUTES in
             Return ({[ "access_token" := VStr access_token;
                        "token_type" := VStr "bearer" ]} : row))))
  end.

Definition login (db : Supabase) (user_data : UserLogin)
  : Supabase * result row :=
  let form_data := form_of (ul_email user_data) (ul_password user_data) in
  login_for_access_token db form_data.

End Routes.
End Auth.

(** ** Credential Manager *)
Module CredentialManager.
Section Hashing.

(** Modelled from the spec: [get_password_hash] and [verify_password]
    live in [app/api/auth.py], which is not among the sources.  The
    spec's contract: [hash] incorporates a per-call salt, embeds it in
    the digest and fails only on empty or oversized input; [verify]
    recomputes the transform using the salt embedded in the digest and
    compares, and returns false on a malformed digest.  The one-way
    [transform] and the size bound are left open. *)
Variable transform : string → string → string.
Variable max_plaintext : nat.

Inductive digest :=
| Digest (salt body : string)
| Malformed (raw : string).

Definition accepted (plaintext : string) : bool :=
  negb (String.eqb plaintext "")
  && Nat.leb (String.length plaintext) max_plaintext.

Definition hash (salt plaintext : string) : option digest :=
  if accepted plaintext then Some (Digest salt (transform salt plaintext))
  else None.

Definition verify (plaintext : string) (d : digest) : bool :=
  match d with
  | Digest salt body => String.eqb (transform salt plaintext) body
  | Malformed _ => false
  end.

End Hashing.
End CredentialManager.

(** ** Token Authority *)
Module TokenAuthority.

(** Modelled from the spec: [create_access_token] and
    [get_current_user] live in [app/api/auth.py], which is not among
    the sources.  The spec's token carries the subject id, the issuance
    time, the expiry time and a signature; [issue] sets the expiry to
    now plus the lifetime and signs with the secret; [verify] is a
    function of the token, the current time and the secret, and
    answers Unauthenticated alike on a signature that does not verify,
    a malformed encoding and an elapsed expiry.  The signature is
    symbolic: it stands for the secret and the fields it was produced
    from, and verifies only against those. *)
Inductive signature :=
| Signed (secret subject : string) (issued_at expires_at : nat).

#[global] Instance signature_eq_dec : EqDecision signature.
Proof. solve_decision. Defined.

Record AccessToken := {
  subject : string;
  issued_at : nat;
  expires_at : nat;
  sig : signature
}.

Inductive identity :=
| Authenticated (subject_id : string)
| Unauthenticated.

Definition sign (secret : string) (s : string) (iat exp : nat) : signature :=
  Signed secret s iat exp.

Definition issue (secret : string) (now : nat) (subject_id : string)
    (ttl : nat) : AccessToken :=
  {| subject := subject_id;
     issued_at := now;
     expires_at := now + ttl;
     sig := sign secret subject_id now (now + ttl) |}.

(** [None] is a token that does not decode. *)
Definition verify (secret : string) (now : nat) (token : option AccessToken)
  : identity :=
  match token with
  | None => Unauthenticated
  | Some t =>
      if decide (sig t = sign secret (subject t) (issued_at t) (expires_at t))
      then
        if decide (now < expires_at t) then Authenticated (subject t)
        else Unauthenticated
      else Unauthenticated
  end.

End TokenAuthority.

(** ** [app/main.py]: the allowed origins

    The text of BACKEND_CORS_ORIGINS (empty when unset) with every
    apostrophe replaced by a double quote, then [json.loads] when the
    text is not empty and the two local origins otherwise.  [json.loads]
    is the library's; it is a parameter. *)
Module Main.

Definition apostrophe : Ascii.ascii := Ascii.ascii_of_nat 39.
Definition double_quote : Ascii.ascii := Ascii.ascii_of_nat 34.

(** [str.replace] of the apostrophe by the double quote. *)
Fixpoint replace_quotes (s : string) : string :=
  match s with
  | EmptyString => EmptyString
  | String c rest =>
      String (if Ascii.eqb c apostrophe then double_quote else c)
        (replace_quotes rest)
  end.

Definition cors_origins (env : option string) : string :=
  replace_quotes (default "" env).

Definition default_origins : list string :=
  [ "http://localhost:3000"; "http://127.0.0.1:3000" ].

Definition origins (json_loads : string → result (list string))
    (env : option string) : result (list string) :=
  if String.eqb (cors_origins env) "" then Return default_origins
  else json_loads (cors_origins env).

End Main.

(** ** [scripts/rotate_credentials.py]: the generated secret

    [generate_secret_key] is the base64 text of 48 random bytes.  The
    standard base64 encoding is written out: three bytes give four
    characters of the alphabet, a last group of one or two bytes is
    padded with the equals sign. *)
Module RotateCredentials.

Definition b64_alphabet : string :=
  "ABCDEFGHIJKLMNOPQRSTUVWXYZabcdefghijklmnopqrstuvwxyz0123456789+/".

Definition pad : Ascii.ascii := Ascii.ascii_of_nat 61.

Definition b64_char (sextet : N) : Ascii.ascii :=
  match String.get (N.to_nat sextet) b64_alphabet with
  | Some c => c
  | None => pad
  end.

Definition group3 (a b c : Byte.byte) : N :=
  (Byte.to_N a * 65536 + Byte.to_N b * 256 + Byte.to_N c)%N.

Definition sextet (n : N) (i : N) : N :=
  ((n / 64 ^ (3 - i)) mod 64)%N.

Fixpoint b64encode (bs : list Byte.byte) : string :=
  match bs with
  | [] => EmptyString
  | [a] =>
      let n := group3 a Byte.x00 Byte.x00 in
      String (b64_char (sextet n 0)) (String (b64_char (sextet n 1))
        (String pad (String pad EmptyString)))
  | [a; b] =>
      let n := group3 a b Byte.x00 in
      String (b64_char (sextet n 0)) (String (b64_char (sextet n 1))
        (String (b64_char (sextet n 2)) (String pad EmptyString)))
  | a :: b :: c :: rest =>
      let n := group3 a b c in
      String (b64_char (sextet n 0)) (String (b64_char (sextet n 1))
        (String (b64_char (sextet n 2)) (String (b64_char (sextet n 3))
          (b64encode rest))))
  end.

(** The 64 values a sextet can take. *)
Definition sextets : list N := N.of_nat <$> seq 0 64.

(** [token_bytes] is the draw of [secrets.token_bytes(48)]. *)
Definition generate_secret_key (token_bytes : list Byte.byte) : string :=
  b64encode token_bytes.

End RotateCredentials.

(** ** Integrity constraint and sample data *)

(** The [id] column is the table's primary key: no two rows carry the
    same id. *)
Definition primary_key (t : list row) : Prop :=
  NoDup (omap (λ r : row, r !! "id") t).

(** A row passes an optional filter when the filter is absent, empty, or
    equal to the row's column. *)
Definition passes (column : string) (x : option string) (r : row) : Prop :=
  ∀ s, x = Some s → s ≠ "" → r !! column = Some (VStr s).

Definition alice : TokenData := {| user_id := "u-alice" |}.
Definition bob : TokenData := {| user_id := "u-bob" |}.

Definition paper : row :=
  {[ "id" := VStr "d1";
     "user_id" := VStr "u-alice";
     "title" := VStr "Position paper";
     "type" := VStr "position_paper";
     "committee" := VStr "UNSC";
     "country" := VStr "France";
     "topic" := VStr "Cybersecurity";
     "content" := VNull;
     "format_status" := VStr "not_checked";
     "created_at" := VStr "2025-01-01T00:00:00" ]}.

Definition alice_row : row :=
  {[ "id" := VStr "u-alice";
     "email" := VStr "a@x.com";
     "username" := VStr "alice";
     "password" := VStr "$hash$";
     "created_at" := VStr "2025-01-01T00:00:00" ]}.

Definition db0 : Supabase :=
  {| users := [alice_row]; documents := [paper] |}.

Definition retitle : DocumentUpdate :=
  {| du_title := Some "Draft resolution"; du_type := None;
     du_committee := None; du_country := None; du_topic := None;
     du_content := None; du_format_status := None |}.

Definition carol : UserCreate :=
  {| uc_email := "c@x.com"; uc_username := "carol"; uc_password := "pw-c" |}.

Definition alice_again : UserCreate :=
  {| uc_email := "a@x.com"; uc_username := "alice2"; uc_password := "pw-a" |}.

(** Stand-ins for the functions of [app/api/auth.py], to run the
    handlers on sample data. *)
Definition sample_hash (plaintext : string) : string := "$" ++ plaintext ++ "$".

Definition sample_verify (plaintext : string) (hashed : value) : bool :=
  bool_decide (hashed = VStr (sample_hash plaintext)).

Definition sample_token (data : row) (minutes : nat) : string :=
  match data !! "sub" with
  | Some (VStr s) => "token:" ++ s
  | _ => "token:"
  end.

Definition sample_transform (salt plaintext : string) : string :=
  salt ++ ":" ++ plaintext.

Definition carol_generated : row :=
  {[ "id" := VStr "u-carol"; "created_at" := VStr "2025-02-02T00:00:00" ]}.

Definition carol_response : row :=
  {[ "id" := VStr "u-carol";
     "email" := VStr "c@x.com";
     "username" := VStr "carol";
     "created_at" := VStr "2025-02-02T00:00:00" ]}.

Definition carol_row : row :=
  {[ "id" := VStr "u-carol";
     "email" := VStr "c@x.com";
     "username" := VStr "carol";
     "password" := VStr "$pw-c$";
     "created_at" := VStr "2025-02-02T00:00:00" ]}.

Definition oauth_form : OAuth2PasswordRequestForm :=
  {| grant_type := Some "password"; username := "a@x.com";
     password := "hash"; scope := "read";
     client_id := None; client_secret := None |}.

Definition alice_login : UserLogin :=
  {| ul_email := "a@x.com"; ul_password := "hash" |}.

(** The [email] column of [users] holds no address twice. *)
Definition unique_emails (t : list row) : Prop :=
  NoDup (omap (λ r : row, r !! "email") t).

(** The columns a [DocumentUpdate] body can name. *)
Definition DocumentUpdate_fields : list string :=
  [ "title"; "type"; "committee"; "country"; "topic"; "content";
    "format_status" ].

Definition empty_update : DocumentUpdate :=
  {| du_title := None; du_type := None; du_committee := None;
     du_country := None; du_topic := None; du_content := None;
     du_format_status := None |}.

Definition speech : DocumentCreate :=
  {| dc_title := "Opening speech"; dc_type := "speech";
     dc_committee := "UNSC"; dc_country := "Japan";
     dc_topic := "Cybersecurity"; dc_content := Some "Honourable chair" |}.

Definition speech_generated : row :=
  {[ "id" := VStr "d2"; "created_at" := VStr "2025-03-03T00:00:00" ]}.

(** ** Facts about the tables *)
Section TableFacts.

Implicit Types (t : list row) (r : row) (column text : string).

Lemma select_eq_elem column text t r :
  r ∈ Table.select_eq column text t ↔ r ∈ t ∧ Table.matches column text r.
Proof. unfold Table.select_eq. rewrite list_elem_of_filter. tauto. Qed.

Lemma select_eq_none column text t :
  (∀ r, r ∈ t → ¬ Table.matches column text r) →
  Table.select_eq column text t = [].
Proof.
  intros Hno. destruct (Table.select_eq column text t) as [|r rest] eqn:E;
    [done|].
  assert (Hr : r ∈ Table.select_eq column text t) by (rewrite E; left).
  apply select_eq_elem in Hr as [Hin Hm]. by destruct (Hno r Hin).
Qed.

Lemma select_eq_some column text t r :
  r ∈ t → Table.matches column text r →
  ∃ first rest, Table.select_eq column text t = first :: rest.
Proof.
  intros Hin Hm.
  destruct (Table.select_eq column text t) as [|a rest] eqn:E; [|eauto].
  assert (Hr : r ∈ Table.select_eq column text t)
    by (apply select_eq_elem; done).
  rewrite E in Hr. by apply elem_of_nil in Hr.
Qed.

Lemma primary_key_cons r t :
  primary_key (r :: t) → primary_key t.
Proof.
  unfold primary_key. simpl. destruct (r !! "id"); [|done].
  by intros [_ ?]%NoDup_cons.
Qed.

Lemma primary_key_select id t r :
  primary_key t → r ∈ t → Table.matches "id" id r →
  Table.select_eq "id" id t = [r].
Proof.
  induction t as [|a t IH]; intros Hpk Hin Hm.
  - by apply elem_of_nil in Hin.
  - unfold Table.select_eq in *. rewrite filter_cons.
    destruct (decide (Table.matches "id" id a)) as [Ha|Ha].
    + assert (Hrest : filter (Table.matches "id" id) t = []).
      { apply select_eq_none. intros r' Hr' Hm'.
        unfold primary_key in Hpk. simpl in Hpk.
        unfold Table.matches in Ha. rewrite Ha in Hpk.
        apply NoDup_cons in Hpk as [Hnotin _]. apply Hnotin.
        apply list_elem_of_omap. by exists r'. }
      rewrite Hrest. f_equal.
      apply elem_of_cons in Hin as [->|Hin]; [done|].
      assert (Hr : r ∈ filter (Table.matches "id" id) t)
        by (apply list_elem_of_filter; done).
      rewrite Hrest in Hr. by apply elem_of_nil in Hr.
    + apply elem_of_cons in Hin as [->|Hin]; [done|].
      apply IH; [by eapply primary_key_cons|done..].
Qed.

Lemma update_eq_lookup data column text t i :
  Table.update_eq data column text t !! i
  = Table.patch column text data <$> t !! i.
Proof. unfold Table.update_eq. apply list_lookup_fmap. Qed.

Lemma patch_lookup_other column text data r k :
  data !! k = None → Table.patch column text data r !! k = r !! k.
Proof.
  intros Hk. unfold Table.patch. case_decide; [|done].
  rewrite lookup_union_r; done.
Qed.

Lemma patch_lookup_set column text data r k v :
  Table.matches column text r → data !! k = Some v →
  Table.patch column text data r !! k = Some v.
Proof.
  intros Hm Hk. unfold Table.patch. rewrite decide_True by done.
  by apply lookup_union_Some_l.
Qed.

Lemma patch_unmatched column text data r :
  ¬ Table.matches column text r → Table.patch column text data r = r.
Proof. intros Hm. unfold Table.patch. by rewrite decide_False. Qed.

End TableFacts.

(** ** The document routes *)
Section DocumentFacts.

Import Documents.

Implicit Types (db : Supabase) (r d : row) (current_user : TokenData).

Lemma update_data_lookup document_update k v :
  update_data document_update !! k = Some v
  ↔ DocumentUpdate_dict document_update !! k = Some v ∧ v ≠ VNull.
Proof. unfold update_data. by rewrite map_lookup_filter_Some. Qed.

Lemma update_data_lookup_None document_update k :
  DocumentUpdate_dict document_update !! k = None
  ∨ DocumentUpdate_dict document_update !! k = Some VNull →
  update_data document_update !! k = None.
Proof.
  intros H. destruct (update_data document_update !! k) as [v|] eqn:E;
    [|done].
  apply update_data_lookup in E as [E Hv]. destruct H; congruence.
Qed.

Lemma update_data_not_null document_update k :
  update_data document_update !! k ≠ Some VNull.
Proof. intros [_ H]%update_data_lookup. done. Qed.

(** The gate of [update_document]: first the lookup, then the owner. *)
Lemma update_document_not_found db document_id document_update current_user :
  Table.select_eq "id" document_id (documents db) = [] →
  update_document db document_id document_update current_user
  = (db, HTTPException HTTP_404_NOT_FOUND "Document not found" []).
Proof. intros H. unfold update_document. by rewrite H. Qed.

Lemma update_document_forbidden db document_id document_update current_user
    first rest owner :
  Table.select_eq "id" document_id (documents db) = first :: rest →
  first !! "user_id" = Some owner →
  owner ≠ VStr (user_id current_user) →
  update_document db document_id document_update current_user
  = (db, HTTPException HTTP_403_FORBIDDEN
           "Not authorized to update this document" []).
Proof.
  intros Hsel Hown Hne. unfold update_document.
  rewrite Hsel, Hown. by rewrite decide_True.
Qed.

Lemma update_document_store db document_id document_update current_user
    first rest :
  Table.select_eq "id" document_id (documents db) = first :: rest →
  first !! "user_id" = Some (VStr (user_id current_user)) →
  (update_document db document_id document_update current_user).1
  = with_documents db
      (Table.update_eq (update_data document_update) "id" document_id
         (documents db)).
Proof.
  intros Hsel Hown. unfold update_document. rewrite Hsel, Hown.
  rewrite decide_False by (intros H; by apply H).
  by destruct (Table.updated _ _ _ _).
Qed.

Lemma delete_document_not_found db document_id current_user :
  Table.select_eq "id" document_id (documents db) = [] →
  delete_document db document_id current_user
  = (db, HTTPException HTTP_404_NOT_FOUND "Document not found" []).
Proof. intros H. unfold delete_document. by rewrite H. Qed.

Lemma delete_document_forbidden db document_id current_user
    first rest owner :
  Table.select_eq "id" document_id (documents db) = first :: rest →
  first !! "user_id" = Some owner →
  owner ≠ VStr (user_id current_user) →
  delete_document db document_id current_user
  = (db, HTTPException HTTP_403_FORBIDDEN
           "Not authorized to delete this document" []).
Proof.
  intros Hsel Hown Hne. unfold delete_document.
  rewrite Hsel, Hown. by rewrite decide_True.
Qed.

Lemma delete_document_owner db document_id current_user first rest :
  Table.select_eq "id" document_id (documents db) = first :: rest →
  first !! "user_id" = Some (VStr (user_id current_user)) →
  delete_document db document_id current_user
  = (with_documents db (Table.delete_eq "id" document_id (documents db)),
     Return ()).
Proof.
  intros Hsel Hown. unfold delete_document. rewrite Hsel, Hown.
  by rewrite decide_False by (intros H; by apply H).
Qed.

(** C3: PUT and DELETE on an id no document has answer 404; on a
    document whose owner is not the caller they answer 403, which is
    not 404, and hand back the store as it was. *)
Theorem update_delete_not_found_or_forbidden
    db document_id document_update current_user :
  ((∀ r, r ∈ documents db → ¬ Table.matches "id" document_id r) →
     update_document db document_id document_update current_user
     = (db, HTTPException HTTP_404_NOT_FOUND "Document not found" [])
     ∧ delete_document db document_id current_user
       = (db, HTTPException HTTP_404_NOT_FOUND "Document not found" []))
  ∧ (∀ d owner,
       primary_key (documents db) →
       d ∈ documents db →
       Table.matches "id" document_id d →
       d !! "user_id" = Some owner →
       owner ≠ VStr (user_id current_user) →
       update_document db document_id document_update current_user
       = (db, HTTPException HTTP_403_FORBIDDEN
                "Not authorized to update this document" [])
       ∧ delete_document db document_id current_user
         = (db, HTTPException HTTP_403_FORBIDDEN
                  "Not authorized to delete this document" [])
       ∧ HTTP_403_FORBIDDEN ≠ HTTP_404_NOT_FOUND).
Proof.
  split.
  - intros Hno. apply select_eq_none in Hno.
    split; [by apply update_document_not_found
           |by apply delete_document_not_found].
  - intros d owner Hpk Hin Hm Hown Hne.
    pose proof (primary_key_select _ _ _ Hpk Hin Hm) as Hsel.
    split; [by eapply update_document_forbidden|].
    split; [by eapply delete_document_forbidden|done].
Qed.

Lemma update_delete_not_found_or_forbidden_witness :
  (update_document db0 "d404" retitle bob
   = (db0, HTTPException HTTP_404_NOT_FOUND "Document not found" [])
   ∧ delete_document db0 "d404" bob
     = (db0, HTTPException HTTP_404_NOT_FOUND "Document not found" []))
  ∧ (update_document db0 "d1" retitle bob
     = (db0, HTTPException HTTP_403_FORBIDDEN
               "Not authorized to update this document" [])
     ∧ delete_document db0 "d1" bob
       = (db0, HTTPException HTTP_403_FORBIDDEN
                 "Not authorized to delete this document" [])
     ∧ HTTP_403_FORBIDDEN ≠ HTTP_404_NOT_FOUND).
Proof.
  split.
  - apply (proj1 (update_delete_not_found_or_forbidden
                    db0 "d404" retitle bob)).
    intros r Hr. apply list_elem_of_singleton in Hr. subst r.
    unfold Table.matches. vm_compute. discriminate.
  - apply (proj2 (update_delete_not_found_or_forbidden
                    db0 "d1" retitle bob) paper (VStr "u-alice")).
    + vm_compute. apply NoDup_singleton.
    + simpl. left.
    + vm_compute. reflexivity.
    + vm_compute. reflexivity.
    + vm_compute. discriminate.
Defined.

End DocumentFacts.

Section OwnershipFacts.

Import Documents.

Implicit Types (db : Supabase) (r d : row) (current_user : TokenData).

Lemma check_document_format_found db is_valid document_id current_user
    first rest :
  Table.select_eq "id" document_id (documents db) = first :: rest →
  check_document_format db is_valid document_id current_user
  = (with_documents db
       (Table.update_eq
          {[ "format_status" := VStr (if is_valid then "valid" else "issues") ]}
          "id" document_id (documents db)),
     Return {[ "document_id" := VStr document_id;
               "format_status" := VStr (if is_valid then "valid" else "issues");
               "issues" := if is_valid then VNull else VList format_issues ]}).
Proof. intros H. unfold check_document_format. by rewrite H. Qed.

(** C1: the format check writes [format_status] on a document of another
    user.  [paper] belongs to alice; bob's request is answered 200 and the
    stored row changes, where PUT and DELETE by bob leave it as it was. *)
Theorem format_check_writes_without_owner_check :
  paper !! "user_id" = Some (VStr "u-alice")
  ∧ user_id bob ≠ "u-alice"
  ∧ check_document_format db0 true "d1" bob
    = ({| users := [alice_row];
          documents := [<["format_status" := VStr "valid"]> paper] |},
       Return {[ "document_id" := VStr "d1";
                 "format_status" := VStr "valid";
                 "issues" := VNull ]})
  ∧ <["format_status" := VStr "valid"]> paper ≠ paper
  ∧ (update_document db0 "d1" retitle bob).1 = db0
  ∧ (delete_document db0 "d1" bob).1 = db0.
Proof.
  split; [by vm_compute|]. split; [by vm_compute|].
  split; [by vm_compute|]. split; [|split; by vm_compute].
  intros H. apply (f_equal (λ m : row, m !! "format_status")) in H.
  vm_compute in H. discriminate.
Qed.

End OwnershipFacts.

Section ReadFacts.

Import Documents.

Implicit Types (db : Supabase) (r d : row) (current_user : TokenData).

Lemma narrow_elem column x (t : list row) r :
  r ∈ narrow column x t ↔ r ∈ t ∧ passes column x r.
Proof.
  unfold narrow, passes, truthy. destruct x as [s|]; simpl.
  - destruct (String.eqb_spec s "") as [->|Hs]; simpl.
    + split; [|tauto]. intros Hr. split; [done|]. by intros ? [= <-] ?.
    + rewrite select_eq_elem. unfold Table.matches. split.
      * intros [Hr Hm]. split; [done|]. by intros ? [= <-] _.
      * intros [Hr Hp]. split; [done|]. by apply Hp.
  - split; [|tauto]. intros Hr. split; [done|]. by intros ? [=].
Qed.

(** C2, counterexample: bob lists and fetches alice's document. *)
Lemma get_documents_returns_foreign_document :
  get_documents db0 None None None bob = (db0, Return [paper])
  ∧ get_document db0 "d1" bob = (db0, Return paper)
  ∧ paper !! "user_id" = Some (VStr "u-alice")
  ∧ user_id bob ≠ "u-alice".
Proof. repeat split; by vm_compute. Qed.

(** C2, as the code has it: the listing holds exactly the stored documents
    that pass the optional filters, and the lookup by id returns the
    stored document with that id or 404; neither looks at the owner. *)
Theorem get_documents_any_owner db type committee country current_user :
  (∃ rows,
     get_documents db type committee country current_user = (db, Return rows)
     ∧ ∀ r, r ∈ rows ↔
            r ∈ documents db
            ∧ passes "type" type r
            ∧ passes "committee" committee r
            ∧ passes "country" country r)
  ∧ ∀ document_id,
      ((∀ r, r ∈ documents db → ¬ Table.matches "id" document_id r) →
       get_document db document_id current_user
       = (db, HTTPException HTTP_404_NOT_FOUND "Document not found" []))
      ∧ (∀ d, primary_key (documents db) →
              d ∈ documents db →
              Table.matches "id" document_id d →
              get_document db document_id current_user = (db, Return d)).
Proof.
  split.
  - eexists. split; [reflexivity|]. intros r.
    rewrite !narrow_elem. tauto.
  - intros document_id. unfold get_document. split.
    + intros Hno. by rewrite (select_eq_none _ _ _ Hno).
    + intros d Hpk Hin Hm. by rewrite (primary_key_select _ _ _ Hpk Hin Hm).
Qed.

Lemma get_documents_any_owner_witness :
  get_document db0 "d404" bob
  = (db0, HTTPException HTTP_404_NOT_FOUND "Document not found" [])
  ∧ get_document db0 "d1" bob = (db0, Return paper).
Proof.
  split.
  - apply (proj2 (get_documents_any_owner db0 None None None bob) "d404").
    intros r Hr. apply list_elem_of_singleton in Hr. subst r.
    unfold Table.matches. vm_compute. discriminate.
  - apply (proj2 (get_documents_any_owner db0 None None None bob) "d1").
    + vm_compute. apply NoDup_singleton.
    + simpl. left.
    + vm_compute. reflexivity.
Defined.

End ReadFacts.

Section WriteFacts.

Import Documents.

Implicit Types (db : Supabase) (r d : row) (current_user : TokenData).

(** C8: on an existing id the format check answers with that id, a status
    that is "valid" or "issues", an issues list exactly under "issues", and
    stores that status on the document; nothing else in the store moves. *)
Theorem check_document_format_response
    db is_valid document_id current_user d :
  d ∈ documents db →
  Table.matches "id" document_id d →
  ∃ db' resp status,
    check_document_format db is_valid document_id current_user
    = (db', Return resp)
    ∧ resp !! "document_id" = Some (VStr document_id)
    ∧ resp !! "format_status" = Some (VStr status)
    ∧ (status = "valid" ∨ status = "issues")
    ∧ (status = "issues" ↔ ∃ l, resp !! "issues" = Some (VList l))
    ∧ (status = "valid" ↔ resp !! "issues" = Some VNull)
    ∧ users db' = users db
    ∧ length (documents db') = length (documents db)
    ∧ ∀ i r, documents db !! i = Some r →
        ∃ r', documents db' !! i = Some r'
          ∧ (Table.matches "id" document_id r →
             r' !! "format_status" = Some (VStr status)
             ∧ ∀ k, k ≠ "format_status" → r' !! k = r !! k)
          ∧ (¬ Table.matches "id" document_id r → r' = r).
Proof.
  intros Hin Hm.
  destruct (select_eq_some _ _ _ _ Hin Hm) as (first & rest & Hsel).
  rewrite (check_document_format_found _ is_valid _ current_user _ _ Hsel).
  eexists _, _, (if is_valid then "valid" else "issues").
  split; [reflexivity|].
  split; [by simplify_map_eq|]. split; [by simplify_map_eq|].
  split; [destruct is_valid; auto|].
  split; [destruct is_valid; simplify_map_eq; split;
          first [done | by intros [? [=]] | by eexists]|].
  split; [destruct is_valid; simplify_map_eq; split; done|].
  split; [done|]. simpl.
  split; [unfold Table.update_eq; by rewrite length_fmap|].
  intros i r Hr. rewrite update_eq_lookup, Hr. simpl.
  eexists. split; [reflexivity|]. split.
  - intros Hmr. split.
    + apply patch_lookup_set; [done|]. by simplify_map_eq.
    + intros k Hk. apply patch_lookup_other. by simplify_map_eq.
  - apply patch_unmatched.
Qed.

Lemma check_document_format_response_witness :
  ∃ db' resp status,
    check_document_format db0 false "d1" alice = (db', Return resp)
    ∧ resp !! "document_id" = Some (VStr "d1")
    ∧ resp !! "format_status" = Some (VStr status)
    ∧ (status = "valid" ∨ status = "issues")
    ∧ (status = "issues" ↔ ∃ l, resp !! "issues" = Some (VList l))
    ∧ (status = "valid" ↔ resp !! "issues" = Some VNull)
    ∧ users db' = users db0
    ∧ length (documents db') = length (documents db0)
    ∧ ∀ i r, documents db0 !! i = Some r →
        ∃ r', documents db' !! i = Some r'
          ∧ (Table.matches "id" "d1" r →
             r' !! "format_status" = Some (VStr status)
             ∧ ∀ k, k ≠ "format_status" → r' !! k = r !! k)
          ∧ (¬ Table.matches "id" "d1" r → r' = r).
Proof.
  apply (check_document_format_response db0 false "d1" alice paper).
  - simpl. left.
  - vm_compute. reflexivity.
Defined.

(** C10: a PUT by the owner writes the non-null fields of the body to the
    document and leaves every other field, and every other row, as stored;
    no field becomes null that was not null before. *)
Theorem update_document_applies_non_null_fields
    db document_id document_update current_user d :
  primary_key (documents db) →
  d ∈ documents db →
  Table.matches "id" document_id d →
  d !! "user_id" = Some (VStr (user_id current_user)) →
  let db' := (update_document db document_id document_update current_user).1 in
  let body := DocumentUpdate_dict document_update in
  users db' = users db
  ∧ length (documents db') = length (documents db)
  ∧ ∀ i r, documents db !! i = Some r →
      ∃ r', documents db' !! i = Some r'
        ∧ (¬ Table.matches "id" document_id r → r' = r)
        ∧ ∀ k,
            (Table.matches "id" document_id r →
             ∀ v, body !! k = Some v → v ≠ VNull → r' !! k = Some v)
            ∧ (body !! k = None ∨ body !! k = Some VNull →
               r' !! k = r !! k)
            ∧ (r' !! k = Some VNull → r !! k = Some VNull).
Proof.
  intros Hpk Hin Hm Hown db' body.
  pose proof (primary_key_select _ _ _ Hpk Hin Hm) as Hsel.
  subst db'.
  rewrite (update_document_store _ _ document_update _ _ _ Hsel Hown).
  simpl. split; [done|].
  split; [unfold Table.update_eq; by rewrite length_fmap|].
  intros i r Hr. rewrite update_eq_lookup, Hr. simpl.
  eexists. split; [reflexivity|].
  split; [apply patch_unmatched|].
  intros k. split; [|split].
  - intros Hmr v Hv Hnn. apply patch_lookup_set; [done|].
    by apply update_data_lookup.
  - intros Hk. apply patch_lookup_other. by apply update_data_lookup_None.
  - unfold Table.patch. case_decide; [|done].
    intros [Hd|[_ Hd]]%lookup_union_Some_raw; [|done].
    by apply update_data_not_null in Hd.
Qed.

End WriteFacts.

(** ** The authentication routes *)
Section AuthFacts.

Variable get_password_hash : string → string.
Variable verify_password : string → value → bool.
Variable create_access_token : row → nat → string.
Variable ACCESS_TOKEN_EXPIRE_MINUTES : nat.

Implicit Types (db : Supabase) (r : row) (user : UserCreate).

(** C5: a signup whose email is already stored answers 400 "Email already
    registered" and hands back the store as it was. *)
Theorem create_user_conflict db reply user r :
  r ∈ users db →
  r !! "email" = Some (VStr (uc_email user)) →
  Auth.create_user get_password_hash db reply user
  = (db, HTTPException HTTP_400_BAD_REQUEST "Email already registered" []).
Proof.
  intros Hin Hm.
  destruct (select_eq_some "email" (uc_email user) _ _ Hin Hm)
    as (first & rest & Hsel).
  unfold Auth.create_user. by rewrite Hsel.
Qed.

Lemma create_user_stores db generated user :
  Table.select_eq "email" (uc_email user) (users db) = [] →
  (Auth.create_user get_password_hash db (Stored generated) user).1
  = with_users db
      (Table.insert
         (Table.stored_row
            {[ "email" := VStr (uc_email user);
               "username" := VStr (uc_username user);
               "password" := VStr (get_password_hash (uc_password user)) ]}
            generated)
         (users db)).
Proof. intros H. unfold Auth.create_user. by rewrite H. Qed.

(** C9: the body of a successful signup has the fields id, email, username
    and created_at and no other; there is no password field in it, while
    the stored row carries the hash. *)
Theorem create_user_response_fields db reply user db' resp :
  Auth.create_user get_password_hash db reply user = (db', Return resp) →
  dom resp = ({[ "id"; "email"; "username"; "created_at" ]} : gset string)
  ∧ resp !! "password" = None
  ∧ resp !! "email" = Some (VStr (uc_email user))
  ∧ resp !! "username" = Some (VStr (uc_username user))
  ∧ ∃ stored,
      users db' = (users db ++ [stored])%list
      ∧ stored !! "password"
        = Some (VStr (get_password_hash (uc_password user)))
      ∧ resp !! "id" = stored !! "id"
      ∧ resp !! "created_at" = stored !! "created_at".
Proof.
  unfold Auth.create_user.
  destruct (Table.select_eq _ _ _); [|by intros [=]].
  destruct reply as [|generated]; [by intros [=]|].
  set (new_user := ({[ "email" := _; "username" := _; "password" := _ ]} : row)).
  set (created := Table.stored_row new_user generated).
  assert (He : created !! "email" = Some (VStr (uc_email user))).
  { unfold created, Table.stored_row. apply lookup_union_Some_l.
    unfold new_user. by simplify_map_eq. }
  assert (Hu : created !! "username" = Some (VStr (uc_username user))).
  { unfold created, Table.stored_row. apply lookup_union_Some_l.
    unfold new_user. by simplify_map_eq. }
  assert (Hp : created !! "password"
               = Some (VStr (get_password_hash (uc_password user)))).
  { unfold created, Table.stored_row. apply lookup_union_Some_l.
    unfold new_user. by simplify_map_eq. }
  unfold getitem. rewrite He, Hu.
  destruct (created !! "id") as [id|] eqn:Hid; [|by intros [=]].
  destruct (created !! "created_at") as [at_|] eqn:Hat; [|by intros [=]].
  intros [= <- <-].
  split; [rewrite !dom_insert_L, dom_singleton_L; set_solver|].
  split; [by simplify_map_eq|].
  split; [by simplify_map_eq|].
  split; [by simplify_map_eq|].
  exists created. simpl. unfold Table.insert.
  split; [done|]. split; [done|].
  split; by simplify_map_eq.
Qed.

(** C6: [/auth/login] with an email and a password answers what
    [/auth/token] answers to a form carrying them as username and
    password. *)
Theorem login_same_as_token db form_data user_data :
  username form_data = ul_email user_data →
  password form_data = ul_password user_data →
  Auth.login verify_password create_access_token
    ACCESS_TOKEN_EXPIRE_MINUTES db user_data
  = Auth.login_for_access_token verify_password create_access_token
      ACCESS_TOKEN_EXPIRE_MINUTES db form_data.
Proof.
  intros Hu Hp. unfold Auth.login, Auth.login_for_access_token.
  simpl. by rewrite Hu, Hp.
Qed.

End AuthFacts.

Lemma update_document_applies_non_null_fields_witness :
  let db' := (Documents.update_document db0 "d1" retitle alice).1 in
  let body := DocumentUpdate_dict retitle in
  users db' = users db0
  ∧ length (documents db') = length (documents db0)
  ∧ ∀ i r, documents db0 !! i = Some r →
      ∃ r', documents db' !! i = Some r'
        ∧ (¬ Table.matches "id" "d1" r → r' = r)
        ∧ ∀ k,
            (Table.matches "id" "d1" r →
             ∀ v, body !! k = Some v → v ≠ VNull → r' !! k = Some v)
            ∧ (body !! k = None ∨ body !! k = Some VNull →
               r' !! k = r !! k)
            ∧ (r' !! k = Some VNull → r !! k = Some VNull).
Proof.
  apply (update_document_applies_non_null_fields db0 "d1" retitle alice paper).
  - vm_compute. apply NoDup_singleton.
  - simpl. left.
  - vm_compute. reflexivity.
  - vm_compute. reflexivity.
Defined.

Example update_document_retitle :
  Documents.update_document db0 "d1" retitle alice
  = ({| users := [alice_row];
        documents := [<["title" := VStr "Draft resolution"]> paper] |},
     Return (<["title" := VStr "Draft resolution"]> paper)).
Proof. vm_compute. reflexivity. Qed.

Lemma create_user_conflict_witness :
  alice_row ∈ users db0
  ∧ alice_row !! "email" = Some (VStr (uc_email alice_again))
  ∧ Auth.create_user sample_hash db0 (Stored carol_generated) alice_again
    = (db0, HTTPException HTTP_400_BAD_REQUEST "Email already registered" []).
Proof.
  assert (Hin : alice_row ∈ users db0) by (simpl; left).
  assert (Hm : alice_row !! "email" = Some (VStr (uc_email alice_again)))
    by (vm_compute; reflexivity).
  split; [exact Hin|]. split; [exact Hm|].
  exact (create_user_conflict sample_hash db0 (Stored carol_generated)
           alice_again alice_row Hin Hm).
Defined.

Lemma create_user_response_fields_witness :
  Auth.create_user sample_hash db0 (Stored carol_generated) carol
  = ({| users := [alice_row; carol_row]; documents := [paper] |},
     Return carol_response)
  ∧ dom carol_response
    = ({[ "id"; "email"; "username"; "created_at" ]} : gset string)
  ∧ carol_response !! "password" = None.
Proof.
  assert (Hrun :
    Auth.create_user sample_hash db0 (Stored carol_generated) carol
    = ({| users := [alice_row; carol_row]; documents := [paper] |},
       Return carol_response)) by (vm_compute; reflexivity).
  split; [exact Hrun|].
  pose proof (create_user_response_fields sample_hash db0
                (Stored carol_generated) carol _ _ Hrun) as (Hd & Hp & _).
  split; [exact Hd|exact Hp].
Defined.

Lemma login_same_as_token_witness :
  username oauth_form = ul_email alice_login
  ∧ password oauth_form = ul_password alice_login
  ∧ Auth.login sample_verify sample_token 30 db0 alice_login
    = Auth.login_for_access_token sample_verify sample_token 30 db0 oauth_form.
Proof.
  split; [reflexivity|]. split; [reflexivity|].
  apply (login_same_as_token sample_verify sample_token 30 db0
           oauth_form alice_login); reflexivity.
Defined.

Example login_alice :
  Auth.login sample_verify sample_token 30 db0 alice_login
  = (db0, Return {[ "access_token" := VStr "token:u-alice";
                    "token_type" := VStr "bearer" ]}).
Proof. vm_compute. reflexivity. Qed.

Example login_wrong_password :
  Auth.login sample_verify sample_token 30 db0
    {| ul_email := "a@x.com"; ul_password := "guess" |}
  = (db0, Auth.unauthorized).
Proof. vm_compute. reflexivity. Qed.

(** ** The Credential Manager *)
Section CredentialFacts.

Import CredentialManager.

Variable transform : string → string → string.
Variable max_plaintext : nat.

Lemma hash_accepted salt plaintext :
  accepted max_plaintext plaintext = true →
  hash transform max_plaintext salt plaintext
  = Some (Digest salt (transform salt plaintext)).
Proof. intros H. unfold hash. by rewrite H. Qed.

Lemma hash_fails_only_on_empty_or_oversized salt plaintext :
  hash transform max_plaintext salt plaintext = None
  ↔ plaintext = "" ∨ max_plaintext < String.length plaintext.
Proof.
  unfold hash, accepted.
  destruct (String.eqb_spec plaintext "") as [->|Hne]; simpl.
  - split; [by left|done].
  - destruct (Nat.leb_spec (String.length plaintext) max_plaintext).
    + split; [done|]. intros [?|?]; [done|lia].
    + split; [by right|done].
Qed.

Lemma verify_digest plaintext salt body :
  verify transform plaintext (Digest salt body) = true
  ↔ transform salt plaintext = body.
Proof. simpl. apply String.eqb_eq. Qed.

Lemma verify_malformed plaintext raw :
  verify transform plaintext (Malformed raw) = false.
Proof. reflexivity. Qed.

(** C7: a digest produced by [hash] for a plaintext verifies against that
    plaintext, whatever salt the call drew. *)
Theorem verify_hash salt plaintext d :
  hash transform max_plaintext salt plaintext = Some d →
  verify transform plaintext d = true.
Proof.
  unfold hash. destruct (accepted max_plaintext plaintext); [|done].
  intros [= <-]. simpl. apply String.eqb_refl.
Qed.

End CredentialFacts.

Lemma verify_hash_witness :
  CredentialManager.hash sample_transform 72 "salt1" "s3cret"
  = Some (CredentialManager.Digest "salt1" "salt1:s3cret")
  ∧ CredentialManager.verify sample_transform "s3cret"
      (CredentialManager.Digest "salt1" "salt1:s3cret") = true.
Proof.
  assert (Hh : CredentialManager.hash sample_transform 72 "salt1" "s3cret"
               = Some (CredentialManager.Digest "salt1" "salt1:s3cret"))
    by reflexivity.
  split; [exact Hh|].
  exact (verify_hash sample_transform 72 "salt1" "s3cret" _ Hh).
Defined.

Example verify_wrong_password :
  CredentialManager.verify sample_transform "guess"
    (CredentialManager.Digest "salt1" "salt1:s3cret") = false.
Proof. reflexivity. Qed.

Example hash_salted :
  CredentialManager.hash sample_transform 72 "salt1" "s3cret"
  ≠ CredentialManager.hash sample_transform 72 "salt2" "s3cret".
Proof. by vm_compute. Qed.

(** ** The Token Authority *)
Section TokenFacts.

Import TokenAuthority.

Implicit Types (secret subject_id : string) (now later ttl : nat).

Lemma verify_issue secret now subject_id ttl :
  (0 < ttl)%nat →
  verify secret now (Some (issue secret now subject_id ttl))
  = Authenticated subject_id.
Proof.
  intros Httl. unfold verify, issue. simpl.
  rewrite decide_True by done. rewrite decide_True by lia. done.
Qed.

Lemma verify_expired secret now later subject_id ttl :
  (now + ttl ≤ later)%nat →
  verify secret later (Some (issue secret now subject_id ttl))
  = Unauthenticated.
Proof.
  intros Hlate. unfold verify, issue. simpl.
  rewrite decide_True by done. rewrite decide_False by lia. done.
Qed.

Lemma verify_undecodable secret now :
  verify secret now None = Unauthenticated.
Proof. reflexivity. Qed.

(** C4: a token issued under one secret and verified under a different
    one yields Unauthenticated, at any time of verification. *)
Theorem verify_under_other_secret (k1 k2 : string) now later subject_id ttl :
  (0 < ttl)%nat →
  k1 ≠ k2 →
  verify k2 later (Some (issue k1 now subject_id ttl)) = Unauthenticated.
Proof.
  intros _ Hk. unfold verify, issue, sign. simpl.
  rewrite decide_False; [done|]. intros [= Heq]. by apply Hk.
Qed.

Lemma verify_under_other_secret_witness :
  (0 < 30)%nat
  ∧ "old-secret" ≠ "new-secret"
  ∧ verify "new-secret" 1001 (Some (issue "old-secret" 1000 "u-alice" 30))
    = Unauthenticated
  ∧ verify "old-secret" 1001 (Some (issue "old-secret" 1000 "u-alice" 30))
    = Authenticated "u-alice".
Proof.
  assert (Httl : (0 < 30)%nat) by lia.
  assert (Hk : "old-secret" ≠ "new-secret") by discriminate.
  split; [exact Httl|]. split; [exact Hk|].
  split; [|reflexivity].
  exact (verify_under_other_secret "old-secret" "new-secret" 1000 1001
           "u-alice" 30 Httl Hk).
Defined.

End TokenFacts.

(** ** More on the tables *)
Section TableInvariants.

Implicit Types (t : list row) (r data : row) (column text : string).

Lemma omap_cons_id r t :
  omap (λ r : row, r !! "id") (r :: t)
  = match r !! "id" with
    | Some v => v :: omap (λ r : row, r !! "id") t
    | None => omap (λ r : row, r !! "id") t
    end.
Proof. done. Qed.

Lemma patch_matches column text c v data r :
  data !! c = None →
  Table.matches c v (Table.patch column text data r) ↔ Table.matches c v r.
Proof.
  intros Hc. unfold Table.matches. by rewrite patch_lookup_other.
Qed.

Lemma select_eq_update_eq column text data t :
  data !! column = None →
  Table.select_eq column text (Table.update_eq data column text t)
  = Table.updated data column text t.
Proof.
  intros Hc. unfold Table.updated, Table.select_eq, Table.update_eq.
  induction t as [|a t IH]; [done|].
  rewrite fmap_cons.
  destruct (decide (Table.matches column text a)) as [Ha|Ha].
  - rewrite filter_cons_True by (by apply patch_matches).
    rewrite (filter_cons_True _ a) by done.
    rewrite fmap_cons. by f_equal.
  - rewrite filter_cons_False by (by rewrite patch_matches).
    by rewrite (filter_cons_False _ a) by done.
Qed.

Lemma patch_patch column text data r :
  data !! column = None →
  Table.patch column text data (Table.patch column text data r)
  = Table.patch column text data r.
Proof.
  intros Hc. unfold Table.patch at 1.
  destruct (decide (Table.matches column text (Table.patch column text data r)))
    as [Hm|Hm]; [|done].
  apply patch_matches in Hm; [|done].
  unfold Table.patch. rewrite decide_True by done.
  by rewrite (assoc_L (∪)), (idemp_L (∪)).
Qed.

Lemma update_eq_update_eq column text data t :
  data !! column = None →
  Table.update_eq data column text (Table.update_eq data column text t)
  = Table.update_eq data column text t.
Proof.
  intros Hc. unfold Table.update_eq. rewrite <-list_fmap_compose.
  apply list_fmap_ext. intros i r _. simpl. by apply patch_patch.
Qed.

Lemma update_eq_empty column text t :
  Table.update_eq ∅ column text t = t.
Proof.
  unfold Table.update_eq. rewrite <-(list_fmap_id t) at 2.
  apply list_fmap_ext. intros i r _. unfold Table.patch.
  case_decide; [|done]. by rewrite (left_id_L ∅ (∪)).
Qed.

Lemma update_eq_ids data column text t :
  data !! "id" = None →
  omap (λ r : row, r !! "id") (Table.update_eq data column text t)
  = omap (λ r : row, r !! "id") t.
Proof.
  intros Hid. unfold Table.update_eq.
  induction t as [|a t IH]; [done|]. rewrite fmap_cons.
  rewrite !omap_cons_id, patch_lookup_other by done. by rewrite IH.
Qed.

Lemma primary_key_update_eq data column text t :
  data !! "id" = None →
  primary_key t → primary_key (Table.update_eq data column text t).
Proof. intros Hid. unfold primary_key. by rewrite update_eq_ids. Qed.

Lemma primary_key_delete_eq column text t :
  primary_key t → primary_key (Table.delete_eq column text t).
Proof.
  unfold primary_key, Table.delete_eq. intros Hpk.
  eapply sublist_NoDup; [exact Hpk|]. clear Hpk.
  induction t as [|a t IH]; [done|]. rewrite filter_cons.
  destruct (decide (¬ Table.matches column text a)); rewrite !omap_cons_id.
  - destruct (a !! "id"); [by apply sublist_skip|done].
  - destruct (a !! "id"); [by apply sublist_cons|done].
Qed.

Lemma primary_key_insert r t :
  (∀ v, r !! "id" = Some v → ∀ r', r' ∈ t → r' !! "id" ≠ Some v) →
  primary_key t → primary_key (Table.insert r t).
Proof.
  intros Hfresh Hpk. unfold primary_key, Table.insert.
  rewrite omap_app. apply NoDup_app. split; [done|]. split.
  - intros v Hv Hv'. apply list_elem_of_omap in Hv as (r' & Hr' & Hid).
    simpl in Hv'. destruct (r !! "id") as [w|] eqn:Hw;
      [|by apply elem_of_nil in Hv'].
    apply list_elem_of_singleton in Hv' as ->.
    by apply (Hfresh w eq_refl r' Hr').
  - simpl. destruct (r !! "id"); [apply NoDup_singleton|apply NoDup_nil_2].
Qed.

Lemma delete_eq_elem column text t r :
  r ∈ Table.delete_eq column text t
  ↔ r ∈ t ∧ ¬ Table.matches column text r.
Proof. unfold Table.delete_eq. rewrite list_elem_of_filter. tauto. Qed.

Lemma select_eq_delete_eq column text t :
  Table.select_eq column text (Table.delete_eq column text t) = [].
Proof.
  apply select_eq_none. intros r Hr. by apply delete_eq_elem in Hr as [_ ?].
Qed.

Lemma select_eq_insert column text r t :
  Table.select_eq column text (Table.insert r t)
  = (Table.select_eq column text t
     ++ if decide (Table.matches column text r) then [r] else [])%list.
Proof.
  unfold Table.select_eq, Table.insert. rewrite filter_app. f_equal.
Qed.

End TableInvariants.

(** ** The document routes, beyond the gate *)
Section DocumentStore.

Import Documents.

Implicit Types (db : Supabase) (r d : row) (current_user : TokenData).

Lemma with_documents_same db : with_documents db (documents db) = db.
Proof. by destruct db. Qed.

Lemma update_data_other_column document_update k :
  k ∉ DocumentUpdate_fields → update_data document_update !! k = None.
Proof.
  intros Hk. apply update_data_lookup_None. left.
  unfold DocumentUpdate_fields in Hk. unfold DocumentUpdate_dict.
  repeat (apply not_elem_of_cons in Hk as [? Hk]).
  rewrite !lookup_insert_ne by done. by apply lookup_singleton_ne.
Qed.

Ltac not_a_field :=
  unfold DocumentUpdate_fields;
  repeat (apply not_elem_of_cons; split; [done|]); apply not_elem_of_nil.

Lemma update_data_id document_update :
  update_data document_update !! "id" = None.
Proof. apply update_data_other_column. not_a_field. Qed.

Lemma update_data_user_id document_update :
  update_data document_update !! "user_id" = None.
Proof. apply update_data_other_column. not_a_field. Qed.

Lemma update_document_store_cases
    db document_id document_update current_user :
  (update_document db document_id document_update current_user).1 = db
  ∨ (∃ first rest,
       Table.select_eq "id" document_id (documents db) = first :: rest
       ∧ first !! "user_id" = Some (VStr (user_id current_user))
       ∧ (update_document db document_id document_update current_user).1
         = with_documents db
             (Table.update_eq (update_data document_update) "id" document_id
                (documents db))).
Proof.
  destruct (Table.select_eq "id" document_id (documents db))
    as [|first rest] eqn:Hsel.
  - left. by rewrite update_document_not_found.
  - destruct (first !! "user_id") as [owner|] eqn:Hown.
    + destruct (decide (owner = VStr (user_id current_user))) as [->|Hne].
      * right. exists first, rest. split; [done|]. split; [done|].
        by eapply update_document_store.
      * left. by erewrite update_document_forbidden.
    + left. unfold update_document. by rewrite Hsel, Hown.
Qed.

Lemma delete_document_store_cases db document_id current_user :
  (delete_document db document_id current_user).1 = db
  ∨ (delete_document db document_id current_user).1
    = with_documents db (Table.delete_eq "id" document_id (documents db)).
Proof.
  unfold delete_document.
  destruct (Table.select_eq "id" document_id (documents db)); [by left|].
  destruct (_ !! "user_id"); [|by left].
  case_decide; [by left|by right].
Qed.

Lemma check_document_format_store_cases
    db is_valid document_id current_user :
  (check_document_format db is_valid document_id current_user).1 = db
  ∨ (check_document_format db is_valid document_id current_user).1
    = with_documents db
        (Table.update_eq
           {[ "format_status" := VStr (if is_valid then "valid" else "issues") ]}
           "id" document_id (documents db)).
Proof.
  unfold check_document_format.
  destruct (Table.select_eq "id" document_id (documents db));
    [by left|by right].
Qed.

End DocumentStore.

Section DocumentExtras.

Import Documents.

Implicit Types (db : Supabase) (r d : row) (current_user : TokenData).

(** X1: whatever the outcome of a PUT, a column that [DocumentUpdate] does
    not name (id, user_id, created_at, ...) keeps its value in every row,
    and no row is added or dropped. *)
Theorem update_document_keeps_other_columns
    db document_id document_update current_user k :
  k ∉ DocumentUpdate_fields →
  let db' := (update_document db document_id document_update current_user).1 in
  users db' = users db
  ∧ length (documents db') = length (documents db)
  ∧ ∀ i r, documents db !! i = Some r →
      ∃ r', documents db' !! i = Some r' ∧ r' !! k = r !! k.
Proof.
  intros Hk db'. subst db'.
  destruct (update_document_store_cases db document_id document_update
              current_user) as [->|(first & rest & _ & _ & ->)].
  - split; [done|]. split; [done|]. intros i r Hr. by exists r.
  - simpl. split; [done|].
    split; [unfold Table.update_eq; by rewrite length_fmap|].
    intros i r Hr. rewrite update_eq_lookup, Hr. simpl.
    eexists. split; [reflexivity|].
    apply patch_lookup_other. by apply update_data_other_column.
Qed.

Lemma update_document_keeps_other_columns_witness :
  ("user_id" ∉ DocumentUpdate_fields)
  ∧ (∀ i r, documents db0 !! i = Some r →
       ∃ r', documents (update_document db0 "d1" retitle alice).1 !! i = Some r'
             ∧ r' !! "user_id" = r !! "user_id").
Proof.
  assert (Hk : "user_id" ∉ DocumentUpdate_fields).
  { unfold DocumentUpdate_fields.
    repeat (apply not_elem_of_cons; split; [done|]). apply not_elem_of_nil. }
  split; [exact Hk|].
  exact (proj2 (proj2 (update_document_keeps_other_columns
                         db0 "d1" retitle alice "user_id" Hk))).
Defined.

(** X2: sending the same PUT twice leaves the store as the first one left
    it, whatever the first one's outcome. *)
Theorem update_document_twice db document_id document_update current_user :
  (update_document
     (update_document db document_id document_update current_user).1
     document_id document_update current_user).1
  = (update_document db document_id document_update current_user).1.
Proof.
  destruct (update_document_store_cases db document_id document_update
              current_user) as [E|(first & rest & Hsel & Hown & E)];
    rewrite E.
  - exact E.
  - set (data := update_data document_update) in *.
    set (db1 := with_documents db _).
    assert (Hsel1 :
      Table.select_eq "id" document_id (documents db1)
      = Table.patch "id" document_id data first
        :: (Table.patch "id" document_id data <$> rest)).
    { unfold db1. simpl.
      rewrite select_eq_update_eq by apply update_data_id.
      unfold Table.updated. by rewrite Hsel. }
    assert (Hown1 :
      Table.patch "id" document_id data first !! "user_id"
      = Some (VStr (user_id current_user))).
    { rewrite patch_lookup_other by apply update_data_user_id. done. }
    rewrite (update_document_store _ _ document_update _ _ _ Hsel1 Hown1).
    unfold db1, with_documents. simpl. f_equal.
    apply update_eq_update_eq, update_data_id.
Qed.

(** X3: a PUT whose body sets no field changes nothing in the store,
    whoever sends it and whatever the id. *)
Theorem update_document_empty_body db document_id current_user :
  (update_document db document_id empty_update current_user).1 = db.
Proof.
  destruct (update_document_store_cases db document_id empty_update
              current_user) as [E|(first & rest & _ & _ & E)]; [done|].
  rewrite E.
  assert (Hd : update_data empty_update = ∅) by (by vm_compute).
  rewrite Hd, update_eq_empty. apply with_documents_same.
Qed.

(** X4: the primary key of [documents] survives every handler that writes
    to stored documents: PUT, DELETE and the format check. *)
Theorem document_writes_keep_primary_key
    db document_id document_update is_valid current_user :
  primary_key (documents db) →
  primary_key
    (documents (update_document db document_id document_update current_user).1)
  ∧ primary_key (documents (delete_document db document_id current_user).1)
  ∧ primary_key
      (documents
         (check_document_format db is_valid document_id current_user).1).
Proof.
  intros Hpk. split; [|split].
  - destruct (update_document_store_cases db document_id document_update
                current_user) as [->|(? & ? & _ & _ & ->)]; [done|].
    simpl. by apply primary_key_update_eq; [apply update_data_id|].
  - destruct (delete_document_store_cases db document_id current_user)
      as [->| ->]; [done|].
    simpl. by apply primary_key_delete_eq.
  - destruct (check_document_format_store_cases db is_valid document_id
                current_user) as [->| ->]; [done|].
    simpl. apply primary_key_update_eq; [|done]. by simplify_map_eq.
Qed.

Lemma document_writes_keep_primary_key_witness :
  primary_key (documents db0)
  ∧ primary_key (documents (update_document db0 "d1" retitle alice).1)
  ∧ primary_key (documents (delete_document db0 "d1" alice).1)
  ∧ primary_key (documents (check_document_format db0 false "d1" alice).1).
Proof.
  assert (Hpk : primary_key (documents db0))
    by (vm_compute; apply NoDup_singleton).
  split; [exact Hpk|].
  exact (document_writes_keep_primary_key db0 "d1" retitle false alice Hpk).
Defined.

End DocumentExtras.

Section DocumentLifecycle.

Import Documents.

Implicit Types (db : Supabase) (r d : row) (current_user reader : TokenData).

Lemma select_eq_fresh_insert column text (t : list row) r :
  (∀ r', r' ∈ t → ¬ Table.matches column text r') →
  Table.matches column text r →
  Table.select_eq column text (Table.insert r t) = [r].
Proof.
  intros Hfresh Hm. rewrite select_eq_insert.
  rewrite (select_eq_none _ _ _ Hfresh). by rewrite decide_True.
Qed.

(** X5: a created document is stored with the caller as owner, the status
    "not_checked" and the fields of the body; under a fresh id it is what
    GET by that id returns to any user, and the primary key is kept. *)
Theorem create_document_then_get
    db generated document current_user reader i :
  generated !! "id" = Some (VStr i) →
  (∀ r, r ∈ documents db → ¬ Table.matches "id" i r) →
  ∃ db' r,
    create_document db (Stored generated) document current_user
    = (db', Return r)
    ∧ get_document db' i reader = (db', Return r)
    ∧ documents db' = (documents db ++ [r])%list
    ∧ users db' = users db
    ∧ r !! "id" = Some (VStr i)
    ∧ r !! "user_id" = Some (VStr (user_id current_user))
    ∧ r !! "format_status" = Some (VStr "not_checked")
    ∧ r !! "title" = Some (VStr (dc_title document))
    ∧ r !! "type" = Some (VStr (dc_type document))
    ∧ r !! "committee" = Some (VStr (dc_committee document))
    ∧ r !! "country" = Some (VStr (dc_country document))
    ∧ r !! "topic" = Some (VStr (dc_topic document))
    ∧ r !! "content" = Some (opt_value (dc_content document))
    ∧ (primary_key (documents db) → primary_key (documents db')).
Proof.
  intros Hid Hfresh. unfold create_document.
  set (new_document := <["format_status" := _]> _).
  set (r := Table.stored_row new_document generated).
  assert (Hrid : r !! "id" = Some (VStr i)).
  { unfold r, Table.stored_row. rewrite lookup_union_r; [done|].
    unfold new_document, DocumentCreate_dict. by simplify_map_eq. }
  exists (with_documents db (Table.insert r (documents db))), r.
  split; [done|]. split.
  { unfold get_document. simpl.
    by rewrite (select_eq_fresh_insert _ _ _ _ Hfresh Hrid). }
  split; [done|]. split; [done|]. split; [done|].
  unfold r, Table.stored_row, new_document, DocumentCreate_dict.
  repeat (split; [apply lookup_union_Some_l; by simplify_map_eq|]).
  intros Hpk. simpl. apply primary_key_insert; [|done].
  intros v Hv r' Hr' Hv'. change (r !! "id" = Some v) in Hv.
  rewrite Hrid in Hv. injection Hv as <-.
  by apply (Hfresh r' Hr').
Qed.

Lemma create_document_then_get_witness :
  speech_generated !! "id" = Some (VStr "d2")
  ∧ ∃ db' r,
      create_document db0 (Stored speech_generated) speech bob
      = (db', Return r)
      ∧ get_document db' "d2" alice = (db', Return r)
      ∧ r !! "user_id" = Some (VStr (user_id bob)).
Proof.
  assert (Hid : speech_generated !! "id" = Some (VStr "d2"))
    by (vm_compute; reflexivity).
  assert (Hfresh : ∀ r, r ∈ documents db0 → ¬ Table.matches "id" "d2" r).
  { intros r Hr. apply list_elem_of_singleton in Hr. subst r.
    unfold Table.matches. vm_compute. discriminate. }
  split; [exact Hid|].
  destruct (create_document_then_get db0 speech_generated speech bob alice
              "d2" Hid Hfresh)
    as (db' & r & Hc & Hg & _ & _ & _ & Ho & _).
  exists db', r. split; [exact Hc|]. split; [exact Hg|exact Ho].
Defined.

(** X6: once a user has created a document under a fresh id, PUT and
    DELETE on it by any other user answer 403 and leave the store as the
    creation left it. *)
Theorem created_document_forbidden_to_others
    db generated document current_user other document_update i :
  generated !! "id" = Some (VStr i) →
  (∀ r, r ∈ documents db → ¬ Table.matches "id" i r) →
  user_id other ≠ user_id current_user →
  let db' :=
    (create_document db (Stored generated) document current_user).1 in
  update_document db' i document_update other
  = (db', HTTPException HTTP_403_FORBIDDEN
            "Not authorized to update this document" [])
  ∧ delete_document db' i other
    = (db', HTTPException HTTP_403_FORBIDDEN
              "Not authorized to delete this document" []).
Proof.
  intros Hid Hfresh Hne db'. subst db'. unfold create_document.
  set (new_document := <["format_status" := _]> _).
  set (r := Table.stored_row new_document generated).
  simpl.
  assert (Hrid : r !! "id" = Some (VStr i)).
  { unfold r, Table.stored_row. rewrite lookup_union_r; [done|].
    unfold new_document, DocumentCreate_dict. by simplify_map_eq. }
  assert (Hown : r !! "user_id" = Some (VStr (user_id current_user))).
  { unfold r, Table.stored_row. apply lookup_union_Some_l.
    unfold new_document, DocumentCreate_dict. by simplify_map_eq. }
  set (db1 := with_documents db (Table.insert r (documents db))).
  assert (Hsel : Table.select_eq "id" i (documents db1) = [r])
    by (by apply (select_eq_fresh_insert "id" i)).
  assert (Hv : VStr (user_id current_user) ≠ VStr (user_id other))
    by (intros [= E]; by apply Hne).
  split.
  - by eapply update_document_forbidden.
  - by eapply delete_document_forbidden.
Qed.

Lemma created_document_forbidden_to_others_witness :
  user_id alice ≠ user_id bob
  ∧ update_document
      (create_document db0 (Stored speech_generated) speech bob).1
      "d2" retitle alice
    = ((create_document db0 (Stored speech_generated) speech bob).1,
       HTTPException HTTP_403_FORBIDDEN
         "Not authorized to update this document" []).
Proof.
  assert (Hne : user_id alice ≠ user_id bob) by (vm_compute; discriminate).
  assert (Hid : speech_generated !! "id" = Some (VStr "d2"))
    by (vm_compute; reflexivity).
  assert (Hfresh : ∀ r, r ∈ documents db0 → ¬ Table.matches "id" "d2" r).
  { intros r Hr. apply list_elem_of_singleton in Hr. subst r.
    unfold Table.matches. vm_compute. discriminate. }
  split; [exact Hne|].
  exact (proj1 (created_document_forbidden_to_others db0 speech_generated
                  speech bob alice retitle "d2" Hid Hfresh Hne)).
Defined.

End DocumentLifecycle.

Section DocumentOutcomes.

Import Documents.

Implicit Types (db : Supabase) (r d : row) (current_user reader : TokenData).

(** X7: after the owner's DELETE the documents left are exactly those with
    another id, in their order; GET, PUT and a second DELETE on the id
    answer 404 to every user. *)
Theorem delete_document_then_not_found
    db document_id current_user d reader document_update :
  primary_key (documents db) →
  d ∈ documents db →
  Table.matches "id" document_id d →
  d !! "user_id" = Some (VStr (user_id current_user)) →
  ∃ db',
    delete_document db document_id current_user = (db', Return ())
    ∧ users db' = users db
    ∧ documents db' `sublist_of` documents db
    ∧ (∀ r, r ∈ documents db'
            ↔ r ∈ documents db ∧ ¬ Table.matches "id" document_id r)
    ∧ get_document db' document_id reader
      = (db', HTTPException HTTP_404_NOT_FOUND "Document not found" [])
    ∧ update_document db' document_id document_update reader
      = (db', HTTPException HTTP_404_NOT_FOUND "Document not found" [])
    ∧ delete_document db' document_id reader
      = (db', HTTPException HTTP_404_NOT_FOUND "Document not found" []).
Proof.
  intros Hpk Hin Hm Hown.
  pose proof (primary_key_select _ _ _ Hpk Hin Hm) as Hsel.
  eexists. split; [by eapply delete_document_owner|].
  simpl. split; [done|].
  split; [apply sublist_filter|].
  split; [intros r; apply delete_eq_elem|].
  assert (Hgone :
    Table.select_eq "id" document_id
      (Table.delete_eq "id" document_id (documents db)) = [])
    by apply select_eq_delete_eq.
  split; [unfold get_document; simpl; by rewrite Hgone|].
  split; [by apply update_document_not_found
         |by apply delete_document_not_found].
Qed.

Lemma delete_document_then_not_found_witness :
  ∃ db',
    delete_document db0 "d1" alice = (db', Return ())
    ∧ get_document db' "d1" bob
      = (db', HTTPException HTTP_404_NOT_FOUND "Document not found" []).
Proof.
  destruct (delete_document_then_not_found db0 "d1" alice paper bob retitle)
    as (db' & Hd & _ & _ & _ & Hg & _).
  - vm_compute. apply NoDup_singleton.
  - simpl. left.
  - vm_compute. reflexivity.
  - vm_compute. reflexivity.
  - exists db'. split; [exact Hd|exact Hg].
Defined.

(** X8: after the owner's PUT, GET by the id returns to any user the
    document with the non-null fields of the body written over the stored
    ones and every other column as it was. *)
Theorem update_document_then_get
    db document_id document_update current_user d reader :
  primary_key (documents db) →
  d ∈ documents db →
  Table.matches "id" document_id d →
  d !! "user_id" = Some (VStr (user_id current_user)) →
  let db' := (update_document db document_id document_update current_user).1 in
  let body := DocumentUpdate_dict document_update in
  ∃ r',
    get_document db' document_id reader = (db', Return r')
    ∧ (∀ k v, body !! k = Some v → v ≠ VNull → r' !! k = Some v)
    ∧ (∀ k, body !! k = None ∨ body !! k = Some VNull → r' !! k = d !! k).
Proof.
  intros Hpk Hin Hm Hown db' body.
  pose proof (primary_key_select _ _ _ Hpk Hin Hm) as Hsel.
  subst db'.
  rewrite (update_document_store _ _ document_update _ _ _ Hsel Hown).
  exists (Table.patch "id" document_id (update_data document_update) d).
  split.
  - unfold get_document. simpl.
    rewrite select_eq_update_eq by apply update_data_id.
    unfold Table.updated. by rewrite Hsel.
  - split.
    + intros k v Hv Hnn. apply patch_lookup_set; [done|].
      by apply update_data_lookup.
    + intros k Hk. apply patch_lookup_other.
      by apply update_data_lookup_None.
Qed.

Lemma update_document_then_get_witness :
  ∃ r',
    get_document (update_document db0 "d1" retitle alice).1 "d1" bob
    = ((update_document db0 "d1" retitle alice).1, Return r')
    ∧ r' !! "title" = Some (VStr "Draft resolution")
    ∧ r' !! "country" = paper !! "country".
Proof.
  destruct (update_document_then_get db0 "d1" retitle alice paper bob)
    as (r' & Hg & Hset & Hkeep).
  - vm_compute. apply NoDup_singleton.
  - simpl. left.
  - vm_compute. reflexivity.
  - vm_compute. reflexivity.
  - exists r'. split; [exact Hg|]. split.
    + apply Hset; [vm_compute; reflexivity|discriminate].
    + apply Hkeep. right. vm_compute. reflexivity.
Defined.

(** X9: the format check on an id no document has answers 404 and leaves
    the store as it was, whatever the draw. *)
Theorem check_document_format_not_found
    db is_valid document_id current_user :
  (∀ r, r ∈ documents db → ¬ Table.matches "id" document_id r) →
  check_document_format db is_valid document_id current_user
  = (db, HTTPException HTTP_404_NOT_FOUND "Document not found" []).
Proof.
  intros Hno. unfold check_document_format.
  by rewrite (select_eq_none _ _ _ Hno).
Qed.

Lemma check_document_format_not_found_witness :
  check_document_format db0 true "d404" alice
  = (db0, HTTPException HTTP_404_NOT_FOUND "Document not found" []).
Proof.
  apply (check_document_format_not_found db0 true "d404" alice).
  intros r Hr. apply list_elem_of_singleton in Hr. subst r.
  unfold Table.matches. vm_compute. discriminate.
Defined.

(** X10: no document handler touches the [users] table, on any input and
    with any outcome. *)
Theorem document_handlers_keep_users
    db reply document document_id document_update is_valid
    type committee country current_user :
  users (create_document db reply document current_user).1 = users db
  ∧ users (get_documents db type committee country current_user).1 = users db
  ∧ users (get_document db document_id current_user).1 = users db
  ∧ users (update_document db document_id document_update current_user).1
    = users db
  ∧ users (delete_document db document_id current_user).1 = users db
  ∧ users (check_document_format db is_valid document_id current_user).1
    = users db.
Proof.
  split; [by destruct reply|]. split; [done|].
  split; [unfold get_document; by destruct (Table.select_eq _ _ _)|].
  split.
  { by destruct (update_document_store_cases db document_id document_update
                   current_user) as [->|(? & ? & _ & _ & ->)]. }
  split.
  { by destruct (delete_document_store_cases db document_id current_user)
      as [->| ->]. }
  by destruct (check_document_format_store_cases db is_valid document_id
                 current_user) as [->| ->].
Qed.

(** X11: a query parameter given as the empty string filters nothing: the
    listing is the one obtained without that parameter. *)
Theorem get_documents_empty_filter db type committee country current_user :
  get_documents db (Some "") committee country current_user
  = get_documents db None committee country current_user
  ∧ get_documents db type (Some "") country current_user
    = get_documents db type None country current_user
  ∧ get_documents db type committee (Some "") current_user
    = get_documents db type committee None current_user.
Proof. done. Qed.

(** X12: the listing is the stored documents with some left out: order is
    kept and nothing is repeated or invented; without filters it is the
    whole table. *)
Theorem get_documents_sublist db type committee country current_user :
  (∃ rows,
     get_documents db type committee country current_user = (db, Return rows)
     ∧ rows `sublist_of` documents db)
  ∧ get_documents db None None None current_user
    = (db, Return (documents db)).
Proof.
  split; [|done]. eexists. split; [reflexivity|].
  assert (Hn : ∀ column x (t : list row), narrow column x t `sublist_of` t).
  { intros column x t. unfold narrow. destruct (truthy x); [|done].
    apply sublist_filter. }
  etrans; [apply Hn|]. etrans; [apply Hn|]. apply Hn.
Qed.

(** X13: when the stored row found under the id has no [user_id] key, PUT
    and DELETE raise [KeyError] and leave the store as it was. *)
Theorem owner_lookup_key_error
    db document_id document_update current_user d :
  primary_key (documents db) →
  d ∈ documents db →
  Table.matches "id" document_id d →
  d !! "user_id" = None →
  update_document db document_id document_update current_user
  = (db, Raised "KeyError")
  ∧ delete_document db document_id current_user = (db, Raised "KeyError").
Proof.
  intros Hpk Hin Hm Hnone.
  pose proof (primary_key_select _ _ _ Hpk Hin Hm) as Hsel.
  unfold update_document, delete_document. by rewrite Hsel, Hnone.
Qed.

Lemma owner_lookup_key_error_witness :
  update_document {| users := []; documents := [{[ "id" := VStr "d9" ]}] |}
    "d9" retitle alice
  = ({| users := []; documents := [{[ "id" := VStr "d9" ]}] |},
     Raised "KeyError")
  ∧ delete_document {| users := []; documents := [{[ "id" := VStr "d9" ]}] |}
      "d9" alice
    = ({| users := []; documents := [{[ "id" := VStr "d9" ]}] |},
       Raised "KeyError").
Proof.
  apply (owner_lookup_key_error
           {| users := []; documents := [{[ "id" := VStr "d9" ]}] |}
           "d9" retitle alice {[ "id" := VStr "d9" ]}).
  - vm_compute. apply NoDup_singleton.
  - simpl. left.
  - vm_compute. reflexivity.
  - vm_compute. reflexivity.
Defined.

End DocumentOutcomes.

(** ** The authentication routes, beyond the conflict *)
Section AuthExtras.

Variable get_password_hash : string → string.
Variable verify_password : string → value → bool.
Variable create_access_token : row → nat → string.
Variable ACCESS_TOKEN_EXPIRE_MINUTES : nat.

Implicit Types (db : Supabase) (r u : row) (user : UserCreate).

Local Abbreviation create_user := (Auth.create_user get_password_hash).
Local Abbreviation login_for_access_token :=
  (Auth.login_for_access_token verify_password create_access_token
     ACCESS_TOKEN_EXPIRE_MINUTES).

Lemma select_eq_unique column text (t : list row) r :
  NoDup (omap (λ r : row, r !! column) t) →
  r ∈ t → Table.matches column text r →
  Table.select_eq column text t = [r].
Proof.
  induction t as [|a t IH]; intros Hnd Hin Hm.
  - by apply elem_of_nil in Hin.
  - unfold Table.select_eq in *. rewrite filter_cons.
    destruct (decide (Table.matches column text a)) as [Ha|Ha].
    + assert (Hrest : filter (Table.matches column text) t = []).
      { apply select_eq_none. intros r' Hr' Hm'. simpl in Hnd.
        unfold Table.matches in Ha. rewrite Ha in Hnd.
        apply NoDup_cons in Hnd as [Hnotin _]. apply Hnotin.
        apply list_elem_of_omap. by exists r'. }
      rewrite Hrest. f_equal.
      apply elem_of_cons in Hin as [->|Hin]; [done|].
      assert (Hr : r ∈ filter (Table.matches column text) t)
        by (apply list_elem_of_filter; done).
      rewrite Hrest in Hr. by apply elem_of_nil in Hr.
    + apply elem_of_cons in Hin as [->|Hin]; [done|].
      apply IH; [|done..]. simpl in Hnd.
      destruct (a !! column); [by apply NoDup_cons in Hnd as [_ ?]|done].
Qed.

Lemma select_eq_email_fresh db email :
  (∀ r, r ∈ users db → r !! "email" ≠ Some (VStr email)) →
  Table.select_eq "email" email (users db) = [].
Proof. intros H. apply select_eq_none. intros r Hr. by apply H. Qed.

Lemma new_user_lookup user generated :
  let stored :=
    Table.stored_row
      {[ "email" := VStr (uc_email user);
         "username" := VStr (uc_username user);
         "password" := VStr (get_password_hash (uc_password user)) ]}
      generated in
  stored !! "email" = Some (VStr (uc_email user))
  ∧ stored !! "username" = Some (VStr (uc_username user))
  ∧ stored !! "password"
    = Some (VStr (get_password_hash (uc_password user)))
  ∧ stored !! "id" = generated !! "id"
  ∧ stored !! "created_at" = generated !! "created_at".
Proof.
  unfold Table.stored_row. simpl.
  repeat (split; [apply lookup_union_Some_l; by simplify_map_eq|]).
  split; apply lookup_union_r; by simplify_map_eq.
Qed.

(** X14: a signup under an email no stored user has, answered by the
    service with an id and a creation time, succeeds: one row is appended
    to [users], holding the hash in its password column, and the body
    carries the id and time the service generated. *)
Theorem create_user_created db generated user idv created_at :
  (∀ r, r ∈ users db → r !! "email" ≠ Some (VStr (uc_email user))) →
  generated !! "id" = Some idv →
  generated !! "created_at" = Some created_at →
  ∃ stored,
    create_user db (Stored generated) user
    = ({| users := users db ++ [stored]; documents := documents db |},
       Return {[ "id" := idv;
                 "email" := VStr (uc_email user);
                 "username" := VStr (uc_username user);
                 "created_at" := created_at ]})
    ∧ stored !! "id" = Some idv
    ∧ stored !! "email" = Some (VStr (uc_email user))
    ∧ stored !! "username" = Some (VStr (uc_username user))
    ∧ stored !! "password"
      = Some (VStr (get_password_hash (uc_password user)))
    ∧ stored !! "created_at" = Some created_at.
Proof.
  intros Hfresh Hid Hat.
  destruct (new_user_lookup user generated) as (He & Hu & Hp & Hi & Hc).
  eexists. split.
  - unfold Auth.create_user.
    rewrite (select_eq_email_fresh _ _ Hfresh).
    unfold getitem. rewrite He, Hu, Hi, Hc, Hid, Hat. reflexivity.
  - rewrite Hi, Hc. done.
Qed.

(** X15: after a signup that the service stored or that already hit a
    conflict, every further signup under the same email answers 400
    "Email already registered" and stores nothing. *)
Theorem create_user_twice db generated reply user user' :
  uc_email user' = uc_email user →
  let db1 := (create_user db (Stored generated) user).1 in
  create_user db1 reply user'
  = (db1, HTTPException HTTP_400_BAD_REQUEST "Email already registered" []).
Proof.
  intros Hsame db1.
  destruct (new_user_lookup user generated) as (He & _).
  assert (∃ r, r ∈ users db1 ∧ r !! "email" = Some (VStr (uc_email user')))
    as (r & Hin & Hm).
  { subst db1. unfold Auth.create_user.
    destruct (Table.select_eq "email" (uc_email user) (users db))
      as [|first rest] eqn:Hsel.
    - eexists. split; [simpl; unfold Table.insert; apply elem_of_app; right;
                       by apply list_elem_of_singleton|].
      by rewrite Hsame.
    - exists first. simpl.
      assert (Hf : first ∈ Table.select_eq "email" (uc_email user) (users db))
        by (rewrite Hsel; left).
      apply select_eq_elem in Hf as [? ?]. by rewrite Hsame. }
  destruct (select_eq_some "email" (uc_email user') _ _ Hin Hm)
    as (first & rest & Hsel).
  unfold Auth.create_user at 1. by rewrite Hsel.
Qed.

End AuthExtras.

Lemma create_user_twice_witness :
  uc_email carol = uc_email carol
  ∧ Auth.create_user sample_hash
      (Auth.create_user sample_hash db0 (Stored carol_generated) carol).1
      NoData carol
    = ((Auth.create_user sample_hash db0 (Stored carol_generated) carol).1,
       HTTPException HTTP_400_BAD_REQUEST "Email already registered" []).
Proof.
  split; [reflexivity|].
  exact (create_user_twice sample_hash db0 carol_generated NoData carol carol
           eq_refl).
Defined.

Section AuthSessions.

Variable get_password_hash : string → string.
Variable verify_password : string → value → bool.
Variable create_access_token : row → nat → string.
Variable ACCESS_TOKEN_EXPIRE_MINUTES : nat.

Implicit Types (db : Supabase) (r u : row) (user : UserCreate)
  (form_data : OAuth2PasswordRequestForm).

Local Abbreviation create_user := (Auth.create_user get_password_hash).
Local Abbreviation login_for_access_token :=
  (Auth.login_for_access_token verify_password create_access_token
     ACCESS_TOKEN_EXPIRE_MINUTES).

(** X16: when verification accepts a password against its own hash, a
    user who signed up under a fresh email logs in with that email and
    password and gets a bearer token issued for the id the service gave
    the new row. *)
Theorem create_user_then_login db generated user form_data idv :
  verify_password (uc_password user)
    (VStr (get_password_hash (uc_password user))) = true →
  (∀ r, r ∈ users db → r !! "email" ≠ Some (VStr (uc_email user))) →
  generated !! "id" = Some idv →
  username form_data = uc_email user →
  password form_data = uc_password user →
  let db1 := (create_user db (Stored generated) user).1 in
  login_for_access_token db1 form_data
  = (db1,
     Return {[ "access_token" :=
                 VStr (create_access_token {[ "sub" := idv ]}
                         ACCESS_TOKEN_EXPIRE_MINUTES);
               "token_type" := VStr "bearer" ]}).
Proof.
  intros Hverify Hfresh Hid Hu Hp db1.
  destruct (new_user_lookup get_password_hash user generated)
    as (He & _ & Hpw & Hi & _).
  subst db1.
  rewrite (create_user_stores _ _ _ _ (select_eq_email_fresh _ _ Hfresh)).
  unfold Auth.login_for_access_token. simpl. rewrite Hu.
  rewrite select_eq_insert, (select_eq_email_fresh _ _ Hfresh).
  rewrite decide_True by exact He. simpl.
  unfold getitem. rewrite Hpw, Hp, Hverify. simpl.
  by rewrite Hi, Hid.
Qed.

(** X17: a login under an email no stored user has and a login with a
    password that does not verify get the same answer, 401 "Incorrect
    email or password" with the Bearer challenge, and change nothing. *)
Theorem login_rejections_alike db form_data :
  ((∀ r, r ∈ users db → r !! "email" ≠ Some (VStr (username form_data))) →
   login_for_access_token db form_data
   = (db, HTTPException HTTP_401_UNAUTHORIZED "Incorrect email or password"
            [("WWW-Authenticate", "Bearer")]))
  ∧ (∀ u hashed,
       unique_emails (users db) →
       u ∈ users db →
       u !! "email" = Some (VStr (username form_data)) →
       u !! "password" = Some hashed →
       verify_password (password form_data) hashed = false →
       login_for_access_token db form_data
       = (db, HTTPException HTTP_401_UNAUTHORIZED
                "Incorrect email or password"
                [("WWW-Authenticate", "Bearer")])).
Proof.
  split.
  - intros Hfresh. unfold Auth.login_for_access_token.
    by rewrite (select_eq_email_fresh _ _ Hfresh).
  - intros u hashed Huniq Hin Hm Hpw Hbad.
    unfold Auth.login_for_access_token.
    rewrite (select_eq_unique "email" _ _ _ Huniq Hin Hm).
    unfold getitem. by rewrite Hpw, Hbad.
Qed.

(** X18: a login that returns a token was given the email of a stored
    user and a password that verifies against that user's stored hash;
    the token is issued for that user's id, and the store is unchanged. *)
Theorem login_token_sound db form_data db' resp :
  login_for_access_token db form_data = (db', Return resp) →
  db' = db
  ∧ ∃ u hashed idv,
      u ∈ users db
      ∧ u !! "email" = Some (VStr (username form_data))
      ∧ u !! "password" = Some hashed
      ∧ verify_password (password form_data) hashed = true
      ∧ u !! "id" = Some idv
      ∧ resp = {[ "access_token" :=
                    VStr (create_access_token {[ "sub" := idv ]}
                            ACCESS_TOKEN_EXPIRE_MINUTES);
                  "token_type" := VStr "bearer" ]}.
Proof.
  unfold Auth.login_for_access_token.
  destruct (Table.select_eq "email" (username form_data) (users db))
    as [|u rest] eqn:Hsel; [by intros [=]|].
  assert (Hu : u ∈ Table.select_eq "email" (username form_data) (users db))
    by (rewrite Hsel; left).
  apply select_eq_elem in Hu as [Hin Hm].
  unfold getitem.
  destruct (u !! "password") as [hashed|] eqn:Hpw; [|by intros [=]].
  destruct (verify_password (password form_data) hashed) eqn:Hv;
    [|by intros [=]].
  simpl. destruct (u !! "id") as [idv|] eqn:Hid; [|by intros [=]].
  intros [= <- <-]. split; [done|].
  by exists u, hashed, idv.
Qed.

(** X19: signup keeps the emails of [users] distinct, whatever the
    service answers. *)
Theorem create_user_keeps_unique_emails db reply user :
  unique_emails (users db) →
  unique_emails (users (create_user db reply user).1).
Proof.
  intros Huniq. unfold Auth.create_user.
  destruct (Table.select_eq "email" (uc_email user) (users db))
    as [|first rest] eqn:Hsel; [|done].
  destruct reply as [|generated]; [done|]. simpl.
  destruct (new_user_lookup get_password_hash user generated) as (He & _).
  unfold unique_emails, Table.insert. rewrite omap_app.
  apply NoDup_app. split; [done|]. split.
  - intros v Hv Hv'. apply list_elem_of_omap in Hv as (r' & Hr' & Hre).
    simpl in Hv'. simpl in He. rewrite He in Hv'.
    apply list_elem_of_singleton in Hv' as ->.
    by apply (filter_nil_not_elem_of _ _ r' Hsel).
  - simpl. simpl in He. rewrite He. apply NoDup_singleton.
Qed.

(** X20: the authentication handlers never touch [documents], and a
    login leaves the whole store as it was, on any input and with any
    outcome. *)
Theorem auth_handlers_keep_documents db reply user form_data user_data :
  documents (create_user db reply user).1 = documents db
  ∧ (login_for_access_token db form_data).1 = db
  ∧ (Auth.login verify_password create_access_token
       ACCESS_TOKEN_EXPIRE_MINUTES db user_data).1 = db.
Proof.
  assert (Hl : ∀ f, (login_for_access_token db f).1 = db).
  { intros f. unfold Auth.login_for_access_token.
    by destruct (Table.select_eq _ _ _). }
  split; [|split; [apply Hl|apply Hl]].
  unfold Auth.create_user. destruct (Table.select_eq _ _ _); [|done].
  by destruct reply.
Qed.

End AuthSessions.

Lemma create_user_created_witness :
  ∃ stored,
    Auth.create_user sample_hash db0 (Stored carol_generated) carol
    = ({| users := users db0 ++ [stored]; documents := documents db0 |},
       Return {[ "id" := VStr "u-carol";
                 "email" := VStr (uc_email carol);
                 "username" := VStr (uc_username carol);
                 "created_at" := VStr "2025-02-02T00:00:00" ]})
    ∧ stored !! "password" = Some (VStr (sample_hash (uc_password carol))).
Proof.
  destruct (create_user_created sample_hash db0 carol_generated carol
              (VStr "u-carol") (VStr "2025-02-02T00:00:00"))
    as (stored & Hrun & _ & _ & _ & Hpw & _).
  - intros r Hr. apply list_elem_of_singleton in Hr. subst r.
    vm_compute. discriminate.
  - vm_compute. reflexivity.
  - vm_compute. reflexivity.
  - exists stored. split; [exact Hrun|exact Hpw].
Defined.

Lemma create_user_then_login_witness :
  sample_verify (uc_password carol) (VStr (sample_hash (uc_password carol)))
  = true
  ∧ Auth.login_for_access_token sample_verify sample_token 30
      (Auth.create_user sample_hash db0 (Stored carol_generated) carol).1
      (form_of "c@x.com" "pw-c")
    = ((Auth.create_user sample_hash db0 (Stored carol_generated) carol).1,
       Return {[ "access_token" :=
                   VStr (sample_token {[ "sub" := VStr "u-carol" ]} 30);
                 "token_type" := VStr "bearer" ]}).
Proof.
  assert (Hv : sample_verify (uc_password carol)
                 (VStr (sample_hash (uc_password carol))) = true)
    by (vm_compute; reflexivity).
  split; [exact Hv|].
  apply (create_user_then_login sample_hash sample_verify sample_token 30
           db0 carol_generated carol (form_of "c@x.com" "pw-c")
           (VStr "u-carol") Hv).
  - intros r Hr. apply list_elem_of_singleton in Hr. subst r.
    vm_compute. discriminate.
  - vm_compute. reflexivity.
  - reflexivity.
  - reflexivity.
Defined.

Lemma login_rejections_alike_witness :
  Auth.login_for_access_token sample_verify sample_token 30 db0
    (form_of "nobody@x.com" "hash")
  = (db0, HTTPException HTTP_401_UNAUTHORIZED "Incorrect email or password"
            [("WWW-Authenticate", "Bearer")])
  ∧ Auth.login_for_access_token sample_verify sample_token 30 db0
      (form_of "a@x.com" "guess")
    = (db0, HTTPException HTTP_401_UNAUTHORIZED "Incorrect email or password"
              [("WWW-Authenticate", "Bearer")]).
Proof.
  split.
  - apply (proj1 (login_rejections_alike sample_verify sample_token 30 db0
                    (form_of "nobody@x.com" "hash"))).
    intros r Hr. apply list_elem_of_singleton in Hr. subst r.
    vm_compute. discriminate.
  - apply (proj2 (login_rejections_alike sample_verify sample_token 30 db0
                    (form_of "a@x.com" "guess")) alice_row (VStr "$hash$")).
    + vm_compute. apply NoDup_singleton.
    + simpl. left.
    + vm_compute. reflexivity.
    + vm_compute. reflexivity.
    + vm_compute. reflexivity.
Defined.

Lemma login_token_sound_witness :
  Auth.login_for_access_token sample_verify sample_token 30 db0
    (form_of "a@x.com" "hash")
  = (db0, Return {[ "access_token" := VStr "token:u-alice";
                    "token_type" := VStr "bearer" ]})
  ∧ ∃ u hashed idv,
      u ∈ users db0
      ∧ u !! "email" = Some (VStr "a@x.com")
      ∧ u !! "password" = Some hashed
      ∧ sample_verify "hash" hashed = true
      ∧ u !! "id" = Some idv.
Proof.
  assert (Hrun :
    Auth.login_for_access_token sample_verify sample_token 30 db0
      (form_of "a@x.com" "hash")
    = (db0, Return {[ "access_token" := VStr "token:u-alice";
                      "token_type" := VStr "bearer" ]}))
    by (vm_compute; reflexivity).
  split; [exact Hrun|].
  destruct (login_token_sound sample_verify sample_token 30 db0
              (form_of "a@x.com" "hash") _ _ Hrun)
    as (_ & u & hashed & idv & Hin & He & Hp & Hv & Hi & _).
  by exists u, hashed, idv.
Defined.

Lemma create_user_keeps_unique_emails_witness :
  unique_emails (users db0)
  ∧ unique_emails
      (users (Auth.create_user sample_hash db0 (Stored carol_generated)
                carol).1).
Proof.
  assert (Hu : unique_emails (users db0))
    by (vm_compute; apply NoDup_singleton).
  split; [exact Hu|].
  exact (create_user_keeps_unique_emails sample_hash db0
           (Stored carol_generated) carol Hu).
Defined.

Example b64encode_man :
  RotateCredentials.b64encode [Byte.x4d; Byte.x61; Byte.x6e] = "TWFu"
  ∧ RotateCredentials.b64encode [Byte.x4d; Byte.x61] = "TWE="
  ∧ RotateCredentials.b64encode [Byte.x4d] = "TQ=="
  ∧ RotateCredentials.b64encode [Byte.xff; Byte.xff; Byte.xff] = "////".
Proof. repeat split; vm_compute; reflexivity. Qed.

(** ** The generated secret *)
Section SecretKey.

Import RotateCredentials.

Lemma sextet_lt n i : (sextet n i < 64)%N.
Proof. unfold sextet. by apply N.mod_lt. Qed.

Lemma sextets_sum (n : N) :
  (n < 16777216)%N →
  n = (sextet n 0 * 262144 + sextet n 1 * 4096 + sextet n 2 * 64
       + sextet n 3)%N.
Proof.
  unfold sextet.
  change (64 ^ (3 - 0))%N with 262144%N. change (64 ^ (3 - 1))%N with 4096%N.
  change (64 ^ (3 - 2))%N with 64%N. change (64 ^ (3 - 3))%N with 1%N.
  intros Hn. zify. Z.to_euclidean_division_equations. lia.
Qed.

Lemma sextets_inj (n m : N) :
  (n < 16777216)%N → (m < 16777216)%N →
  sextet n 0 = sextet m 0 → sextet n 1 = sextet m 1 →
  sextet n 2 = sextet m 2 → sextet n 3 = sextet m 3 → n = m.
Proof.
  intros Hn Hm H0 H1 H2 H3.
  rewrite (sextets_sum n Hn), (sextets_sum m Hm). by rewrite H0, H1, H2, H3.
Qed.

Lemma group3_lt a b c : (group3 a b c < 16777216)%N.
Proof.
  unfold group3.
  pose proof (Byte.to_N_bounded a). pose proof (Byte.to_N_bounded b).
  pose proof (Byte.to_N_bounded c). lia.
Qed.

Lemma to_N_inj (a b : Byte.byte) : Byte.to_N a = Byte.to_N b → a = b.
Proof.
  intros H. pose proof (Byte.of_to_N a) as Ha. rewrite H in Ha.
  rewrite Byte.of_to_N in Ha. by injection Ha.
Qed.

Lemma group3_inj a b c a' b' c' :
  group3 a b c = group3 a' b' c' → a = a' ∧ b = b' ∧ c = c'.
Proof.
  unfold group3. intros H.
  pose proof (Byte.to_N_bounded a). pose proof (Byte.to_N_bounded b).
  pose proof (Byte.to_N_bounded c). pose proof (Byte.to_N_bounded a').
  pose proof (Byte.to_N_bounded b'). pose proof (Byte.to_N_bounded c').
  assert (Byte.to_N a = Byte.to_N a' ∧ Byte.to_N b = Byte.to_N b'
          ∧ Byte.to_N c = Byte.to_N c') as (Ha & Hb & Hc) by lia.
  auto using to_N_inj.
Qed.

Lemma sextets_elem k : (k < 64)%N → k ∈ sextets.
Proof.
  intros Hk. unfold sextets. apply list_elem_of_fmap.
  exists (N.to_nat k). split; [by rewrite N2Nat.id|].
  apply elem_of_seq. lia.
Qed.

Lemma b64_char_inj j k :
  (j < 64)%N → (k < 64)%N → b64_char j = b64_char k → j = k.
Proof.
  intros Hj Hk.
  assert (Hall : Forall (λ j, Forall (λ k, b64_char j = b64_char k → j = k)
                                sextets) sextets).
  { apply (bool_decide_unpack _). vm_compute. reflexivity. }
  rewrite Forall_forall in Hall.
  specialize (Hall j (sextets_elem j Hj)). rewrite Forall_forall in Hall.
  exact (Hall k (sextets_elem k Hk)).
Qed.

Lemma b64_char_alphabet k :
  (k < 64)%N → b64_char k ∈ String.list_ascii_of_string b64_alphabet.
Proof.
  intros Hk.
  assert (Hall : Forall (λ k, b64_char k
                              ∈ String.list_ascii_of_string b64_alphabet)
                   sextets).
  { apply (bool_decide_unpack _). vm_compute. reflexivity. }
  rewrite Forall_forall in Hall. exact (Hall k (sextets_elem k Hk)).
Qed.

Lemma pad_not_in_alphabet :
  pad ∉ String.list_ascii_of_string b64_alphabet.
Proof. apply (bool_decide_unpack _). vm_compute. reflexivity. Qed.

Lemma b64encode_groups n (bs : list Byte.byte) :
  length bs = 3 * n →
  String.length (b64encode bs) = 4 * n
  ∧ Forall (λ ch, ch ∈ String.list_ascii_of_string b64_alphabet)
      (String.list_ascii_of_string (b64encode bs)).
Proof.
  revert bs. induction n as [|n IH]; intros bs Hlen.
  - destruct bs; [|done]. split; [done|]. constructor.
  - destruct bs as [|a [|b [|c rest]]]; simpl in Hlen; try lia.
    destruct (IH rest) as [Hl Hf]; [lia|].
    change (b64encode (a :: b :: c :: rest))
      with (String (b64_char (sextet (group3 a b c) 0))
             (String (b64_char (sextet (group3 a b c) 1))
               (String (b64_char (sextet (group3 a b c) 2))
                 (String (b64_char (sextet (group3 a b c) 3))
                   (b64encode rest))))).
    split.
    + simpl. rewrite Hl. lia.
    + simpl. repeat (constructor; [apply b64_char_alphabet, sextet_lt|]).
      exact Hf.
Qed.

Lemma b64encode_groups_inj n (bs bs' : list Byte.byte) :
  length bs = 3 * n → length bs' = 3 * n →
  b64encode bs = b64encode bs' → bs = bs'.
Proof.
  revert bs bs'. induction n as [|n IH]; intros bs bs' Hlen Hlen' Heq.
  - destruct bs, bs'; done.
  - destruct bs as [|a [|b [|c rest]]]; simpl in Hlen; try lia.
    destruct bs' as [|a' [|b' [|c' rest']]]; simpl in Hlen'; try lia.
    change (b64encode (a :: b :: c :: rest))
      with (String (b64_char (sextet (group3 a b c) 0))
             (String (b64_char (sextet (group3 a b c) 1))
               (String (b64_char (sextet (group3 a b c) 2))
                 (String (b64_char (sextet (group3 a b c) 3))
                   (b64encode rest))))) in Heq.
    change (b64encode (a' :: b' :: c' :: rest'))
      with (String (b64_char (sextet (group3 a' b' c') 0))
             (String (b64_char (sextet (group3 a' b' c') 1))
               (String (b64_char (sextet (group3 a' b' c') 2))
                 (String (b64_char (sextet (group3 a' b' c') 3))
                   (b64encode rest'))))) in Heq.
    injection Heq as H0 H1 H2 H3 Hrest.
    apply b64_char_inj in H0, H1, H2, H3; try apply sextet_lt.
    destruct (group3_inj a b c a' b' c') as (-> & -> & ->).
    { apply sextets_inj; auto using group3_lt. }
    f_equal. f_equal. f_equal. apply (IH rest rest'); [lia|lia|done].
Qed.

(** X21: the secret generated from 48 random bytes is 64 characters long,
    every one of them from the base64 alphabet: it carries no padding. *)
Theorem generate_secret_key_shape (token_bytes : list Byte.byte) :
  length token_bytes = 48 →
  String.length (generate_secret_key token_bytes) = 64
  ∧ Forall (λ ch, ch ∈ String.list_ascii_of_string b64_alphabet ∧ ch ≠ pad)
      (String.list_ascii_of_string (generate_secret_key token_bytes)).
Proof.
  intros Hlen. destruct (b64encode_groups 16 token_bytes Hlen) as [Hl Hf].
  split; [exact Hl|]. eapply Forall_impl; [exact Hf|].
  intros ch Hch. split; [done|]. intros ->. by apply pad_not_in_alphabet.
Qed.

(** X22: two draws of 48 bytes that give the same secret are the same
    draw: the encoding loses nothing of the random bytes. *)
Theorem generate_secret_key_inj (b1 b2 : list Byte.byte) :
  length b1 = 48 → length b2 = 48 →
  generate_secret_key b1 = generate_secret_key b2 → b1 = b2.
Proof. apply (b64encode_groups_inj 16). Qed.

End SecretKey.

Lemma generate_secret_key_shape_witness :
  length (replicate 48 Byte.x00) = 48
  ∧ String.length (RotateCredentials.generate_secret_key
                     (replicate 48 Byte.x00)) = 64.
Proof.
  assert (Hlen : length (replicate 48 Byte.x00) = 48) by reflexivity.
  split; [exact Hlen|].
  exact (proj1 (generate_secret_key_shape (replicate 48 Byte.x00) Hlen)).
Defined.

Lemma generate_secret_key_inj_witness :
  replicate 48 Byte.xff = replicate 48 Byte.xff.
Proof.
  apply generate_secret_key_inj; reflexivity.
Defined.

(** ** The allowed origins *)
Section Origins.

Import Main.

Lemma replace_quotes_length s :
  String.length (replace_quotes s) = String.length s.
Proof. induction s as [|c s IH]; simpl; [done|]. by rewrite IH. Qed.

Lemma replace_quotes_empty s : replace_quotes s = "" ↔ s = "".
Proof. by destruct s. Qed.

Lemma replace_quotes_get s i :
  String.get i (replace_quotes s)
  = (λ c, if Ascii.eqb c apostrophe then double_quote else c)
      <$> String.get i s.
Proof.
  revert i. induction s as [|c s IH]; intros i; simpl; [done|].
  destruct i; [done|]. apply IH.
Qed.

(** X23: the text handed to the JSON parser has the length of the
    configured one and holds no apostrophe: each one has become a double
    quote, every other character stays where it was, and a text without
    apostrophes is handed over untouched. *)
Theorem cors_origins_quotes env :
  String.length (cors_origins env) = String.length (default "" env)
  ∧ (apostrophe ∉ String.list_ascii_of_string (cors_origins env))
  ∧ (∀ i, String.get i (cors_origins env)
          = (λ c, if Ascii.eqb c apostrophe then double_quote else c)
              <$> String.get i (default "" env))
  ∧ (apostrophe ∉ String.list_ascii_of_string (default "" env) →
     cors_origins env = default "" env).
Proof.
  unfold cors_origins. generalize (default "" env). intros s.
  split; [apply replace_quotes_length|].
  split; [|split; [apply replace_quotes_get|]].
  - induction s as [|c s IH]; simpl; [apply not_elem_of_nil|].
    apply not_elem_of_cons. split; [|done].
    destruct (Ascii.eqb_spec c apostrophe) as [->|Hc]; [|done].
    by vm_compute.
  - induction s as [|c s IH]; simpl; [done|].
    intros [Hc Hs]%not_elem_of_cons.
    destruct (Ascii.eqb_spec c apostrophe) as [->|_]; [done|].
    by rewrite IH.
Qed.

(** X24: with the variable unset or empty the allowed origins are the two
    local ones and the parser is not consulted; with any other text they
    are what the parser makes of the text with its apostrophes
    replaced. *)
Theorem origins_default json_loads env :
  (env = None ∨ env = Some "" →
   origins json_loads env = Return default_origins)
  ∧ (∀ s, env = Some s → s ≠ "" →
          origins json_loads env = json_loads (replace_quotes s)).
Proof.
  unfold origins, cors_origins. split.
  - by intros [-> | ->].
  - intros s -> Hs. simpl.
    destruct (String.eqb_spec (replace_quotes s) "") as [E|_]; [|done].
    by apply (proj1 (replace_quotes_empty s)) in E.
Qed.

End Origins.

Lemma origins_default_witness :
  Main.origins (λ s, Return [s]) None = Return Main.default_origins
  ∧ Main.origins (λ s, Return [s]) (Some "['http://a.org']")
    = Return [Main.replace_quotes "['http://a.org']"].
Proof.
  split.
  - apply (proj1 (origins_default (λ s, Return [s]) None)). by left.
  - apply (proj2 (origins_default (λ s, Return [s])
                    (Some "['http://a.org']")) "['http://a.org']");
      [reflexivity|discriminate].
Defined.

(** ** Inserts the service does not answer *)
Section NoDataReplies.

Variable get_password_hash : string → string.


End NoDataReplies.

